(** * PTPPing: burst scheduling, tone detection and latency estimation

    A shallow embedding of the measurement core of PTPPing
    ([ptpping/core/config.py], [ptpping/core/ptp_time.py],
    [ptpping/generator/audio_generator.py] and
    [ptpping/capture/audio_capture.py]) together with the properties
    stated about it.

    Conventions of the embedding.
    - Python [int] is [Z]; Python [float] is an exact rational [Q], so
      rounding, infinities and NaN are outside the model.  Results on
      rationals are stated up to [==].
    - [time.time()] and [subprocess.run] are answered by an environment
      ([Env]) indexed by a counter of the effects performed so far.
    - An exception that the source catches is a branch of the model; an
      exception that escapes is a value of [PyExn].
    - Calls to the logger do not influence control flow and are left out. *)

From Stdlib Require Import ZArith QArith Qround Lqa Lia Bool List String Ascii.
From Stdlib Require Import DecimalString.
Import ListNotations.

Local Open Scope Q_scope.

(** ** Python arithmetic on floats *)

Module Py.

(** [a < b] and [a > b] on floats. *)
Definition ltb (a b : Q) : bool := negb (Qle_bool b a).
Definition gtb (a b : Q) : bool := negb (Qle_bool a b).

(** [a // b]: the floor of the quotient; [None] is ZeroDivisionError. *)
Definition floordiv (a b : Q) : option Q :=
  if Qeq_bool b 0 then None else Some (inject_Z (Qfloor (a / b))).

(** [str(n)] and [f"{n}"] for an integer. *)
Definition str_int (n : Z) : string := NilZero.string_of_int (Z.to_int n).

(** [str(b)] for a boolean. *)
Definition str_bool (b : bool) : string :=
  if b then "True"%string else "False"%string.

End Py.

(** ** Exceptions that leave a function *)

Inductive PyExn : Type :=
| ValueError (msg : string)
| ZeroDivisionError.

(** ** Configuration ([core/config.py]) *)

Record PTPConfig : Type := {
  interface : string;
  domain : Z;
  priority : Z
}.

Record AudioConfig : Type := {
  sample_rate : Z;
  tone_frequency : Z;
  burst_duration : Q;
  burst_interval : Q;
  device : string;
  loopback_device : string
}.

Record NetworkConfig : Type := {
  switch_name : string;
  host_name : string;
  vlan_id : Z
}.

Record InfluxDBConfig : Type := {
  url : string;
  database : string;
  organization : string;
  token : string;
  retention_days : Z
}.

Record GrafanaConfig : Type := {
  grafana_url : string;
  api_key : string
}.

Record LoggingConfig : Type := {
  level : string;
  file : string;
  max_size : Z;
  backup_count : Z
}.

Record MonitoringConfig : Type := {
  system_metrics : bool;
  metrics_interval : Z;
  webhook_enabled : bool;
  webhook_url : string
}.

Record Config : Type := {
  ptp : PTPConfig;
  audio : AudioConfig;
  network : NetworkConfig;
  influxdb : InfluxDBConfig;
  grafana : GrafanaConfig;
  logging : LoggingConfig;
  monitoring : MonitoringConfig
}.

(** [Config.validate].  The first test evaluates
    [sample_rate % tone_frequency], which raises ZeroDivisionError for a
    zero divisor; [Z.modulo] is Python's [%] for a non-zero divisor. *)
Definition validate (self : Config) : PyExn + bool :=
  let a := audio self in
  let p := ptp self in
  if (tone_frequency a =? 0)%Z then inl ZeroDivisionError
  else if negb (sample_rate a mod tone_frequency a =? 0)%Z then
    inl (ValueError ("Tone frequency " ++ Py.str_int (tone_frequency a)
                     ++ " must be an integer divisor of sample rate "
                     ++ Py.str_int (sample_rate a)))
  else if Qle_bool (burst_duration a) 0 || Qle_bool (burst_interval a) 0 then
    inl (ValueError "Burst duration and interval must be positive")
  else if Qle_bool (burst_interval a) (burst_duration a) then
    inl (ValueError "Burst duration must be less than burst interval")
  else if ((domain p <? 0) || (domain p >? 255))%Z then
    inl (ValueError "PTP domain must be between 0 and 255")
  else if ((priority p <? 0) || (priority p >? 255))%Z then
    inl (ValueError "PTP priority must be between 0 and 255")
  else inr true.

(** The invariants of a configuration, in the words of the specification.
    A frequency divides the rate evenly when the rate is a whole multiple
    of it; nothing is a whole multiple of zero in this sense, the quotient
    being undefined. *)
Definition evenly_divides (f s : Z) : Prop := f <> 0%Z /\ (f | s)%Z.

Definition in_byte_range (n : Z) : Prop := (0 <= n <= 255)%Z.

(** A violation of the invariants, clause by clause. *)
Definition config_violation (c : Config) : Prop :=
  ~ evenly_divides (tone_frequency (audio c)) (sample_rate (audio c))
  \/ burst_duration (audio c) <= 0
  \/ burst_interval (audio c) <= 0
  \/ burst_interval (audio c) <= burst_duration (audio c)
  \/ ~ in_byte_range (domain (ptp c))
  \/ ~ in_byte_range (priority (ptp c)).

(** ** The boundary grid ([generator/audio_generator.py]) *)

(** [(t // P + 1) * P], the expression both the generator and the capture
    side evaluate once the division is defined. *)
Definition next_boundary (t P : Q) : Q := (inject_Z (Qfloor (t / P)) + 1) * P.

(** The same expression with Python's division error. *)
Definition next_burst (t P : Q) : option Q :=
  match Py.floordiv t P with
  | Some q => Some ((q + 1) * P)
  | None => None
  end.

(** The most recently elapsed boundary, as the specification words the
    capture side: [floor(t / P) * P]. *)
Definition last_boundary (t P : Q) : Q := inject_Z (Qfloor (t / P)) * P.

(** ** Python string operations used by the parsers *)

Module PyStr.

Local Open Scope string_scope.

(** [needle in s]. *)
Fixpoint contains (needle s : string) : bool :=
  if String.prefix needle s then true
  else match s with
       | EmptyString => false
       | String _ s' => contains needle s'
       end.

(** Whitespace of [str.split()] and [str.strip()] among the ASCII codes. *)
Definition is_space (c : ascii) : bool :=
  let n := nat_of_ascii c in
  ((9 <=? n) && (n <=? 13) || (28 <=? n) && (n <=? 32))%nat.

(** [s.split()]: the maximal runs of non-whitespace characters. *)
Fixpoint split_ws_from (cur : string) (s : string) : list string :=
  match s with
  | EmptyString => if (String.length cur =? 0)%nat then [] else [cur]
  | String c s' =>
      if is_space c then
        if (String.length cur =? 0)%nat then split_ws_from "" s'
        else cur :: split_ws_from "" s'
      else split_ws_from (cur ++ String c "") s'
  end.

Definition split_ws (s : string) : list string := split_ws_from "" s.

(** [s.split(sep)] for a non-empty separator, scanning from the left;
    [skip] counts the characters of a separator still to be passed. *)
Fixpoint split_from (sep : string) (skip : nat) (cur : string) (s : string)
  : list string :=
  match s with
  | EmptyString => [cur]
  | String c s' =>
      match skip with
      | S k => split_from sep k cur s'
      | O =>
          if String.prefix sep s
          then cur :: split_from sep (String.length sep - 1) "" s'
          else split_from sep 0 (cur ++ String c "") s'
      end
  end.

Definition split (sep s : string) : list string := split_from sep 0 "" s.

(** [xs[-1]]; [None] is IndexError. *)
Definition last_item {A : Type} (xs : list A) : option A :=
  match rev xs with
  | [] => None
  | x :: _ => Some x
  end.

Fixpoint lstrip (s : string) : string :=
  match s with
  | EmptyString => EmptyString
  | String c s' => if is_space c then lstrip s' else s
  end.

Definition reverse (s : string) : string :=
  string_of_list_ascii (rev (list_ascii_of_string s)).

(** [s.strip()]. *)
Definition strip (s : string) : string :=
  reverse (lstrip (reverse (lstrip s))).

End PyStr.

(** The conversions [float(s)] and [int(s)] of the Python runtime; [None]
    is ValueError.  The model is parametric in them. *)
Class PyParse : Type := {
  py_float : string -> option Q;
  py_int : string -> option Z
}.

(** An instance for concrete runs: it reads plain decimal notation (an
    optional sign, digits and, for a float, a point followed by digits)
    and gives on such strings the value the runtime's conversions give. *)
Module Decimal10.

Definition digit (c : ascii) : option Z :=
  let n := nat_of_ascii c in
  if ((48 <=? n) && (n <=? 57))%nat then Some (Z.of_nat (n - 48)) else None.

Fixpoint digits (acc : Z) (s : string) : option Z :=
  match s with
  | EmptyString => Some acc
  | String c s' =>
      match digit c with
      | Some d => digits (10 * acc + d)%Z s'
      | None => None
      end
  end.

Definition unsigned (s : string) : option Z :=
  match s with
  | EmptyString => None
  | _ => digits 0 s
  end.

Definition signed {A : Type} (body : string -> option A) (neg : A -> A)
  (s : string) : option A :=
  match s with
  | String "-"%char s' => option_map neg (body s')
  | String "+"%char s' => body s'
  | _ => body s
  end.

Definition int (s : string) : option Z := signed unsigned Z.opp s.

Definition ufloat (s : string) : option Q :=
  match PyStr.split "." s with
  | [w] => option_map inject_Z (unsigned w)
  | [w; f] =>
      match unsigned w, unsigned f with
      | Some a, Some b =>
          Some (inject_Z a + inject_Z b / inject_Z (10 ^ Z.of_nat (String.length f)))
      | _, _ => None
      end
  | _ => None
  end.

Definition float (s : string) : option Q := signed ufloat Qopp s.

End Decimal10.

Definition decimal_parse : PyParse :=
  {| py_float := Decimal10.float; py_int := Decimal10.int |}.

(** ** The environment and the effect monad *)

(** The result of [subprocess.run(argv, capture_output=True, text=True,
    timeout=5)]: a completed process with its return code and the lines of
    its standard output ([stdout.splitlines()]), the timeout, or any other
    exception (for instance a command that cannot be found). *)
Inductive RunOutcome : Type :=
| Completed (returncode : Z) (stdout_lines : list string)
| TimeoutExpired
| OtherException.

(** What the outside world answers to the [n]-th effect of a run. *)
Record Env : Type := {
  clock : nat -> Q;
  spawn : list string -> nat -> RunOutcome
}.

(** A point of the InfluxDB client: measurement, fields and tags in the
    order they are set. *)
Record Point : Type := {
  measurement : string;
  fields : list (string * option Q);
  tags : list (string * string)
}.

(** The part of the world the program changes: the number of effects
    performed and the writes handed to the metrics sink, oldest first,
    each with its bucket. *)
Record Sys : Type := {
  tick : nat;
  influx : list (string * Point)
}.

Definition M (S A : Type) : Type := Env -> Sys -> S -> A * Sys * S.

Definition ret {S A : Type} (a : A) : M S A := fun _ sys s => (a, sys, s).

Definition bind {S A B : Type} (m : M S A) (k : A -> M S B) : M S B :=
  fun env sys s => let '(a, sys', s') := m env sys s in k a env sys' s'.

Declare Scope eff_scope.
Delimit Scope eff_scope with eff.
Notation "x <- m ;; k" := (bind m (fun x => k))
  (at level 61, m at next level, right associativity) : eff_scope.
Notation "m ;; k" := (bind m (fun _ => k))
  (at level 61, right associativity) : eff_scope.
Local Open Scope eff_scope.

Definition get {S : Type} : M S S := fun _ sys s => (s, sys, s).

Definition modify {S : Type} (f : S -> S) : M S unit :=
  fun _ sys s => (tt, sys, f s).

Definition next_tick (sys : Sys) : Sys :=
  {| tick := S (tick sys); influx := influx sys |}.

(** [time.time()]. *)
Definition time_time {S : Type} : M S Q :=
  fun env sys s => (clock env (tick sys), next_tick sys, s).

(** [subprocess.run(argv, ...)]. *)
Definition subprocess_run {S : Type} (argv : list string) : M S RunOutcome :=
  fun env sys s => (spawn env argv (tick sys), next_tick sys, s).

(** [write_api.write(bucket=..., record=point)]; a failing write raises
    inside the caller's handler and leaves the caller's state as it is. *)
Definition influx_write {S : Type} (bucket : string) (p : Point) : M S unit :=
  fun _ sys s =>
    (tt, {| tick := tick sys; influx := influx sys ++ [(bucket, p)] |}, s).

(** Run a method of a component held in a field of the caller. *)
Definition zoom {O I A : Type} (proj : O -> I) (upd : I -> O -> O) (m : M I A)
  : M O A :=
  fun env sys o =>
    let '(a, sys', i') := m env sys (proj o) in (a, sys', upd i' o).

(** A step of the world that touches only the clock and the processes:
    the counter of effects does not go back and the sink is untouched. *)
Definition clock_only (sys sys' : Sys) : Prop :=
  (tick sys <= tick sys')%nat /\ influx sys' = influx sys.

(** ** The clock source ([core/ptp_time.py]) *)

Module PTPTimeManager.

Record t : Type := {
  config : PTPConfig;
  _ptp_sync : bool;
  _last_sync_check : Q;
  _sync_check_interval : Q
}.

(** [__init__]. *)
Definition init (cfg : PTPConfig) : t :=
  {| config := cfg;
     _ptp_sync := false;
     _last_sync_check := 0;
     _sync_check_interval := 60 |}.

Definition set_ptp_sync (b : bool) (self : t) : t :=
  {| config := config self;
     _ptp_sync := b;
     _last_sync_check := _last_sync_check self;
     _sync_check_interval := _sync_check_interval self |}.

Definition set_last_sync_check (v : Q) (self : t) : t :=
  {| config := config self;
     _ptp_sync := _ptp_sync self;
     _last_sync_check := v;
     _sync_check_interval := _sync_check_interval self |}.

Definition pgrep_argv : list string := ["pgrep"; "ptp4l"]%string.

Definition pmc_argv (self : t) : list string :=
  ["pmc"; "-d"; interface (config self); "get"; "CLOCK_CLASS"]%string.

Definition phc_ctl_argv (self : t) : list string :=
  ["phc_ctl"; "-d"; interface (config self); "get"]%string.

Section WithRuntime.

Context {runtime : PyParse}.

(** The loop of [_check_ptp_sync] over the lines of [pmc]: the first line
    that contains [CLOCK_CLASS] decides.  [Some cls] is the parsed class
    (the loop returns); [None] is a loop left without a class, by
    exhaustion, by [break] after ValueError, or by an IndexError that the
    outer handler catches. *)
Fixpoint scan_clock_class (lines : list string) : option Z :=
  match lines with
  | [] => None
  | line :: rest =>
      if PyStr.contains "CLOCK_CLASS" line then
        match PyStr.last_item (PyStr.split_ws line) with
        | Some tok => py_int tok
        | None => None
        end
      else scan_clock_class rest
  end.

(** [clock_class in [6, 7]]. *)
Definition locked_or_holdover (clock_class : Z) : bool :=
  ((clock_class =? 6) || (clock_class =? 7))%Z.

(** [_check_ptp_sync]. *)
Definition _check_ptp_sync : M t unit :=
  result <- subprocess_run pgrep_argv ;;
  match result with
  | Completed returncode _ =>
      if negb (returncode =? 0)%Z then modify (set_ptp_sync false)
      else
        self <- get ;;
        result <- subprocess_run (pmc_argv self) ;;
        match result with
        | Completed returncode stdout_lines =>
            match (if (returncode =? 0)%Z
                   then scan_clock_class stdout_lines else None) with
            | Some clock_class =>
                modify (set_ptp_sync (locked_or_holdover clock_class))
            | None => modify (set_ptp_sync false)
            end
        | TimeoutExpired => modify (set_ptp_sync false)
        | OtherException => modify (set_ptp_sync false)
        end
  | TimeoutExpired => modify (set_ptp_sync false)
  | OtherException => modify (set_ptp_sync false)
  end.

(** The loop of [get_ptp_time] over the lines of [phc_ctl]: the first line
    that contains [clock time is] decides; [None] is a loop left without
    a time. *)
Fixpoint scan_clock_time (lines : list string) : option Q :=
  match lines with
  | [] => None
  | line :: rest =>
      if PyStr.contains "clock time is" line then
        match PyStr.last_item (PyStr.split "clock time is" line) with
        | Some ptp_time_str => py_float (PyStr.strip ptp_time_str)
        | None => None
        end
      else scan_clock_time rest
  end.

(** What a [phc_ctl] outcome yields as a reference time. *)
Definition phc_reading (result : RunOutcome) : option Q :=
  match result with
  | Completed returncode stdout_lines =>
      if (returncode =? 0)%Z then scan_clock_time stdout_lines else None
  | TimeoutExpired => None
  | OtherException => None
  end.

(** The refresh that opens both [get_ptp_time] and [is_synchronized]. *)
Definition refresh_if_due (current_time : Q) : M t unit :=
  self <- get ;;
  if Py.gtb (current_time - _last_sync_check self) (_sync_check_interval self)
  then _check_ptp_sync ;; modify (set_last_sync_check current_time)
  else ret tt.

(** [get_ptp_time].  Every path returns a float: the documented
    [Optional] result is kept as the type callers test against. *)
Definition get_ptp_time : M t (option Q) :=
  current_time <- time_time ;;
  refresh_if_due current_time ;;
  self <- get ;;
  if negb (_ptp_sync self) then
    now <- time_time ;; ret (Some now)
  else
    result <- subprocess_run (phc_ctl_argv self) ;;
    match phc_reading result with
    | Some ptp_time => ret (Some ptp_time)
    | None => now <- time_time ;; ret (Some now)
    end.

(** [get_timestamp]. *)
Definition get_timestamp : M t (option Q * Q) :=
  ptp_time <- get_ptp_time ;;
  system_time <- time_time ;;
  ret (ptp_time, system_time).

(** [calculate_offset]. *)
Definition calculate_offset : M t (option Q) :=
  ts <- get_timestamp ;;
  match fst ts with
  | Some ptp_time => ret (Some (ptp_time - snd ts))
  | None => ret None
  end.

(** [is_synchronized]. *)
Definition is_synchronized : M t bool :=
  current_time <- time_time ;;
  refresh_if_due current_time ;;
  self <- get ;;
  ret (_ptp_sync self).

(** The ways a [phc_ctl] query fails: the command cannot be run, it
    times out, it exits with an error, or its output has no time that
    parses. *)
Inductive phc_failure : RunOutcome -> Prop :=
| phc_unreachable : phc_failure OtherException
| phc_timeout : phc_failure TimeoutExpired
| phc_exit_code returncode stdout_lines :
    returncode <> 0%Z -> phc_failure (Completed returncode stdout_lines)
| phc_malformed stdout_lines :
    scan_clock_time stdout_lines = None -> phc_failure (Completed 0 stdout_lines).

(** The reference clock cannot be read: whenever [phc_ctl] is asked, its
    outcome yields no time. *)
Definition no_reference (env : Env) (self : t) : Prop :=
  forall n, phc_reading (spawn env (phc_ctl_argv self) n) = None.

(** The two signals of the refresh, in the words of the specification:
    the daemon is present, and the reported clock class is locked (6) or
    holdover (7). *)
Definition daemon_present (pgrep : RunOutcome) : Prop :=
  exists stdout_lines, pgrep = Completed 0 stdout_lines.

Definition class_locked_or_holdover (pmc : RunOutcome) : Prop :=
  exists stdout_lines clock_class,
    pmc = Completed 0 stdout_lines
    /\ scan_clock_class stdout_lines = Some clock_class
    /\ (clock_class = 6 \/ clock_class = 7)%Z.

End WithRuntime.

End PTPTimeManager.

(** ** The scheduler ([generator/audio_generator.py]) *)

Module AudioGenerator.

Record t : Type := {
  config : Config;
  ptp_time : PTPTimeManager.t;
  _running : bool
}.

Definition set_ptp_time (m : PTPTimeManager.t) (self : t) : t :=
  {| config := config self; ptp_time := m; _running := _running self |}.

(** What one call of [_wait_for_next_burst] does: sleep for a duration,
    return at once, or let an exception escape to [_run]. *)
Inductive Wait : Type :=
| Slept (seconds : Q)
| Immediate
| Raised (e : PyExn).

Section WithRuntime.

Context {runtime : PyParse}.

(** [_wait_for_next_burst]. *)
Definition _wait_for_next_burst : M t Wait :=
  current_ptp_time <- zoom ptp_time set_ptp_time PTPTimeManager.get_ptp_time ;;
  match current_ptp_time with
  | None => ret (Slept (1 # 10))
  | Some time_since_epoch =>
      self <- get ;;
      match next_burst time_since_epoch (burst_interval (audio (config self))) with
      | None => ret (Raised ZeroDivisionError)
      | Some next =>
          let wait_time := next - time_since_epoch in
          if Py.gtb wait_time 0 then ret (Slept wait_time) else ret Immediate
      end
  end.

End WithRuntime.

End AudioGenerator.

(** ** Detection and latency ([capture/audio_capture.py]) *)

(** The dictionary [burst_info], one field per key. *)
Module BurstInfo.

Record t : Type := {
  ptp_time : option Q;
  system_time : Q;
  detection_time : Q;
  expected_time : Q;
  latency_ms : Q;
  magnitude : Q
}.

End BurstInfo.

(** [xs[start:]] for a Python list. *)
Definition py_slice_from {A : Type} (start : Z) (xs : list A) : list A :=
  let n := Z.of_nat (List.length xs) in
  let s := if (start <? 0)%Z then Z.max 0 (start + n) else Z.min start n in
  skipn (Z.to_nat s) xs.

Module AudioCapture.

(** [_write_api] is the write handle of a reachable InfluxDB, or [None]:
    only its presence matters here. *)
Record t : Type := {
  config : Config;
  ptp_time : PTPTimeManager.t;
  _write_api : bool;
  _detection_threshold : Q;
  _min_burst_gap : Q;
  _last_burst_time : Q;
  _detected_bursts : list BurstInfo.t
}.

(** [__init__]; [connected] says whether [_init_influxdb] succeeded. *)
Definition init (cfg : Config) (connected : bool) : t :=
  {| config := cfg;
     ptp_time := PTPTimeManager.init (ptp cfg);
     _write_api := connected;
     _detection_threshold := 1 # 10;
     _min_burst_gap := 1 # 2;
     _last_burst_time := 0;
     _detected_bursts := [] |}.

Definition set_ptp_time (m : PTPTimeManager.t) (self : t) : t :=
  {| config := config self;
     ptp_time := m;
     _write_api := _write_api self;
     _detection_threshold := _detection_threshold self;
     _min_burst_gap := _min_burst_gap self;
     _last_burst_time := _last_burst_time self;
     _detected_bursts := _detected_bursts self |}.

Definition set_last_burst_time (v : Q) (self : t) : t :=
  {| config := config self;
     ptp_time := ptp_time self;
     _write_api := _write_api self;
     _detection_threshold := _detection_threshold self;
     _min_burst_gap := _min_burst_gap self;
     _last_burst_time := v;
     _detected_bursts := _detected_bursts self |}.

(** [self._detected_bursts.append(burst_info)]. *)
Definition append_burst (b : BurstInfo.t) (self : t) : t :=
  {| config := config self;
     ptp_time := ptp_time self;
     _write_api := _write_api self;
     _detection_threshold := _detection_threshold self;
     _min_burst_gap := _min_burst_gap self;
     _last_burst_time := _last_burst_time self;
     _detected_bursts := _detected_bursts self ++ [b] |}.

(** What one window did to the detector: below the threshold, a raw hit
    discarded by the debounce, or a raw hit accepted as a candidate
    burst and passed to [_detect_burst]. *)
Inductive ChunkEvent : Type :=
| Quiet
| Discarded (current_time : Q)
| Accepted (current_time : Q) (magnitude : Q).

Section WithRuntime.

Context {runtime : PyParse}.

Definition on_ptp {A : Type} (m : M PTPTimeManager.t A) : M t A :=
  zoom ptp_time set_ptp_time m.

(** [_calculate_expected_burst_time]; a ZeroDivisionError of [//] is
    caught by the handler, which returns [None]. *)
Definition _calculate_expected_burst_time : M t (option Q) :=
  ptp_time <- on_ptp PTPTimeManager.get_ptp_time ;;
  match ptp_time with
  | None => ret None
  | Some ptp_time =>
      self <- get ;;
      match next_burst ptp_time (burst_interval (audio (config self))) with
      | None => ret None
      | Some next =>
          ptp_offset <- on_ptp PTPTimeManager.calculate_offset ;;
          match ptp_offset with
          | Some ptp_offset => ret (Some (next - ptp_offset))
          | None => ret None
          end
      end
  end.

(** The point [_send_to_influxdb] builds. *)
Definition latency_point (cfg : Config) (b : BurstInfo.t) (sync : bool) : Point :=
  {| measurement := "audio_latency";
     fields := [ ("latency_ms", Some (BurstInfo.latency_ms b));
                 ("magnitude", Some (BurstInfo.magnitude b));
                 ("ptp_time", BurstInfo.ptp_time b);
                 ("system_time", Some (BurstInfo.system_time b)) ]%string;
     tags := [ ("switch", switch_name (network cfg));
               ("host", host_name (network cfg));
               ("vlan", Py.str_int (vlan_id (network cfg)));
               ("ptp_sync", Py.str_bool sync) ]%string |}.

(** [_send_to_influxdb]. *)
Definition _send_to_influxdb (burst_info : BurstInfo.t) : M t unit :=
  self <- get ;;
  if negb (_write_api self) then ret tt
  else
    sync <- on_ptp PTPTimeManager.is_synchronized ;;
    influx_write (database (influxdb (config self)))
                 (latency_point (config self) burst_info sync).

(** [_detect_burst]. *)
Definition _detect_burst (detection_time magnitude : Q) : M t unit :=
  ts <- on_ptp PTPTimeManager.get_timestamp ;;
  expected_burst_time <- _calculate_expected_burst_time ;;
  match expected_burst_time with
  | Some expected_burst_time =>
      let latency := (detection_time - expected_burst_time) * 1000 in
      let burst_info :=
        {| BurstInfo.ptp_time := fst ts;
           BurstInfo.system_time := snd ts;
           BurstInfo.detection_time := detection_time;
           BurstInfo.expected_time := expected_burst_time;
           BurstInfo.latency_ms := latency;
           BurstInfo.magnitude := magnitude |} in
      modify (append_burst burst_info) ;;
      _send_to_influxdb burst_info
  | None => ret tt
  end.

(** [_process_audio_chunk], from the normalized magnitude of the target
    bin onwards: the spectrum of the window is floating-point numerics
    and enters as its result.  The returned event records what the call
    did; the source returns nothing. *)
Definition _process_audio_chunk (normalized_magnitude : Q) : M t ChunkEvent :=
  self <- get ;;
  if Py.gtb normalized_magnitude (_detection_threshold self) then
    current_time <- time_time ;;
    if Py.gtb (current_time - _last_burst_time self) (_min_burst_gap self) then
      _detect_burst current_time normalized_magnitude ;;
      modify (set_last_burst_time current_time) ;;
      ret (Accepted current_time normalized_magnitude)
    else ret (Discarded current_time)
  else ret Quiet.

(** The audio callback delivering one window after the other. *)
Fixpoint feed (windows : list Q) : M t (list ChunkEvent) :=
  match windows with
  | [] => ret []
  | w :: rest =>
      e <- _process_audio_chunk w ;;
      es <- feed rest ;;
      ret (e :: es)
  end.

(** The reference time and the offset that a detection cycle started in
    [(sys, self)] obtains from the clock source for its expected time:
    the answers of the two queries of [_calculate_expected_burst_time],
    which follow the timestamp query of [_detect_burst]. *)
Definition queried_reference (env : Env) (sys : Sys) (self : t) : option Q :=
  let '(_, sys0, self0) := on_ptp PTPTimeManager.get_timestamp env sys self in
  fst (fst (on_ptp PTPTimeManager.get_ptp_time env sys0 self0)).

Definition queried_offset (env : Env) (sys : Sys) (self : t) : option Q :=
  let '(_, sys0, self0) := on_ptp PTPTimeManager.get_timestamp env sys self in
  let '(_, sys1, self1) := on_ptp PTPTimeManager.get_ptp_time env sys0 self0 in
  fst (fst (on_ptp PTPTimeManager.calculate_offset env sys1 self1)).

(** No reference time is available to the capture side. *)
Definition reference_absent (env : Env) (self : t) : Prop :=
  PTPTimeManager.no_reference env (ptp_time self).

(** What is known once the clock source has answered a query made in
    [(sys, self)] with [v]: only clock and processes were used, at least
    one effect happened, the manager keeps its configuration, and with no
    reference available the answer is the reading of the last effect, a
    [time.time()]. *)
Definition answered (env : Env) (self : t) (sys : Sys) (v : Q) (sys' : Sys)
  (m' : PTPTimeManager.t) : Prop :=
  clock_only sys sys' /\ (tick sys < tick sys')%nat
  /\ PTPTimeManager.config m' = PTPTimeManager.config (ptp_time self)
  /\ (reference_absent env self -> v = clock env (Nat.pred (tick sys'))).

End WithRuntime.

(** The detector parameters and the sink handle, which no method of the
    capture changes. *)
Definition same_detector (self self' : t) : Prop :=
  config self' = config self
  /\ _write_api self' = _write_api self
  /\ _detection_threshold self' = _detection_threshold self
  /\ _min_burst_gap self' = _min_burst_gap self.

(** The debounce rule in the words of the specification: a raw hit at
    [t] is accepted when [t - last_accepted_time > min_burst_gap], and
    only an accepted hit moves [last_accepted_time]. *)
Fixpoint debounce (min_burst_gap last_accepted_time : Q) (hits : list Q)
  : list bool :=
  match hits with
  | [] => []
  | t0 :: rest =>
      if Py.gtb (t0 - last_accepted_time) min_burst_gap
      then true :: debounce min_burst_gap t0 rest
      else false :: debounce min_burst_gap last_accepted_time rest
  end.

(** The latency computation as a function of its four inputs: expected
    time and latency in milliseconds. *)
Definition estimate (reference_time period detection_time offset : Q) : Q * Q :=
  let expected := next_boundary reference_time period - offset in
  (expected, (detection_time - expected) * 1000).

(** [get_recent_bursts]. *)
Definition get_recent_bursts (self : t) (count : Z) : list BurstInfo.t :=
  match _detected_bursts self with
  | [] => []
  | _ => py_slice_from (- count) (_detected_bursts self)
  end.

(** The raw hits of a run, in order, each with its detection time and
    whether it was accepted. *)
Fixpoint raw_hits (es : list ChunkEvent) : list (Q * bool) :=
  match es with
  | [] => []
  | Quiet :: rest => raw_hits rest
  | Discarded t0 :: rest => (t0, false) :: raw_hits rest
  | Accepted t0 _ :: rest => (t0, true) :: raw_hits rest
  end.

(** The candidate bursts emitted by a run. *)
Definition candidates (es : list ChunkEvent) : list (Q * bool) :=
  filter snd (raw_hits es).

End AudioCapture.

(** ** Concrete configurations and environments *)

Module Scenario.

Definition cfg : Config :=
  {| ptp := {| interface := "eth0"; domain := 0; priority := 128 |};
     audio := {| sample_rate := 48000;
                 tone_frequency := 400;
                 burst_duration := 1 # 10;
                 burst_interval := 1;
                 device := "default";
                 loopback_device := "Loopback" |};
     network := {| switch_name := "sw1"; host_name := "node1"; vlan_id := 10 |};
     influxdb := {| url := "http://localhost:8086";
                    database := "ptpping";
                    organization := "org";
                    token := "secret";
                    retention_days := 30 |};
     grafana := {| grafana_url := "http://localhost:3000"; api_key := "key" |};
     logging := {| level := "INFO"; file := "ptpping.log";
                   max_size := 1048576; backup_count := 3 |};
     monitoring := {| system_metrics := false; metrics_interval := 60;
                      webhook_enabled := false; webhook_url := "" |} |}.

(** Nothing has happened yet. *)
Definition sys0 : Sys := {| tick := 0; influx := [] |}.

(** A machine without PTP tools whose clock reads [v] at every call. *)
Definition steady (v : Q) : Env :=
  {| clock := fun _ => v; spawn := fun _ _ => OtherException |}.

(** As [steady (103 # 10)], except that the eighth effect, the
    [time.time()] of the offset query of a first detection cycle, reads
    [10.4]. *)
Definition skewed : Env :=
  {| clock := fun n => if (n =? 7)%nat then 104 # 10 else 103 # 10;
     spawn := fun _ _ => OtherException |}.

(** As [steady (103 # 10)], except for the very first reading. *)
Definition late_start : Env :=
  {| clock := fun n => if (n =? 0)%nat then 5 else 103 # 10;
     spawn := fun _ _ => OtherException |}.

(** A machine whose daemon runs and reports clock class 6 while
    [phc_ctl] times out; the clock reads 1000. *)
Definition locked_without_phc : Env :=
  {| clock := fun _ => 1000;
     spawn := fun argv _ =>
       match argv with
       | "pgrep"%string :: _ => Completed 0 ["4242"%string]
       | "pmc"%string :: _ => Completed 0 ["CLOCK_CLASS 6"%string]
       | _ => TimeoutExpired
       end |}.

(** A clock that advances by one second per effect, starting at 1. *)
Definition ticking : Env :=
  {| clock := fun n => inject_Z (Z.of_nat n) + 1;
     spawn := fun _ _ => OtherException |}.

(** Two readings: the first effect reads [a], every later one [b]. *)
Definition two_readings (a b : Q) : Env :=
  {| clock := fun n => if (n =? 0)%nat then a else b;
     spawn := fun _ _ => OtherException |}.

End Scenario.

(** ** Properties of runs *)

(** Detection times each more than [gap] after the one before, the
    first more than [gap] after [last]. *)
Fixpoint spaced (gap last : Q) (ts : list Q) : Prop :=
  match ts with
  | [] => True
  | t0 :: rest => gap < t0 - last /\ spaced gap t0 rest
  end.

(** A clock whose successive readings never go back. *)
Definition monotone_clock (env : Env) : Prop :=
  forall i j, (i <= j)%nat -> clock env i <= clock env j.

(** ** Loading the configuration ([Config.from_file]) *)

Module ConfigFile.

(** A value of the parsed TOML document.  [Other] stands for the values
    that are neither scalars of these kinds nor tables (arrays, dates and
    times). *)
#[warnings="-register-all"] Inductive Value : Type :=
| Int (n : Z)
| Float (x : Q)
| Str (s : string)
| Bool (b : bool)
| Table (entries : list (string * Value))
| Other.

(** A Python [dict] with string keys. *)
Definition Dict : Type := list (string * Value).

(** [d.get(key)], as [d[key]] uses it. *)
Fixpoint lookup (key : string) (d : Dict) : option Value :=
  match d with
  | [] => None
  | (k, v) :: rest => if String.eqb k key then Some v else lookup key rest
  end.

(** What [toml.load(config_path)] returns: the document, or an exception
    (a missing or unreadable file, a syntax error) with its text. *)
Inductive Load : Type :=
| Parsed (config_data : Dict)
| LoadFailed (detail : string).

(** The outcome of [config_data[section][key]]: the value, the KeyError
    of whichever key is missing, or the TypeError of subscripting a value
    that is not a table. *)
Inductive Access : Type :=
| Got (v : Value)
| KeyError (key : string)
| TypeError (v : Value).

Definition item (config_data : Dict) (section key : string) : Access :=
  match lookup section config_data with
  | None => KeyError section
  | Some (Table entries) =>
      match lookup key entries with
      | None => KeyError key
      | Some v => Got v
      end
  | Some v => TypeError v
  end.

(** The accesses of [from_file] in the order the source evaluates them. *)
Definition fields : list (string * string) :=
  [ ("ptp", "interface"); ("ptp", "domain"); ("ptp", "priority");
    ("audio", "sample_rate"); ("audio", "tone_frequency");
    ("audio", "burst_duration"); ("audio", "burst_interval");
    ("audio", "device"); ("audio", "loopback_device");
    ("network", "switch_name"); ("network", "host_name");
    ("network", "vlan_id");
    ("influxdb", "url"); ("influxdb", "database");
    ("influxdb", "organization"); ("influxdb", "token");
    ("influxdb", "retention_days");
    ("grafana", "url"); ("grafana", "api_key");
    ("logging", "level"); ("logging", "file"); ("logging", "max_size");
    ("logging", "backup_count");
    ("monitoring", "system_metrics"); ("monitoring", "metrics_interval");
    ("monitoring", "webhook_enabled"); ("monitoring", "webhook_url") ]%string.

(** The loaded [Config] before any typing: the value stored in each
    attribute [cfg.section.field].  The dataclasses store what they are
    given. *)
Definition Loaded : Type := list (string * string * Value).

(** [str(e)] for the KeyError of a key. *)
Definition key_error_text (key : string) : string :=
  ("'" ++ key ++ "'")%string.

Section WithText.

(** [str(e)] for the TypeError of subscripting [v] with a string, a text
    of the interpreter. *)
Variable type_error_text : Value -> string.

Fixpoint read (config_data : Dict) (paths : list (string * string))
  : PyExn + Loaded :=
  match paths with
  | [] => inr []
  | (section, key) :: rest =>
      match item config_data section key with
      | Got v =>
          match read config_data rest with
          | inr vs => inr ((section, key, v) :: vs)
          | inl e => inl e
          end
      | KeyError k =>
          inl (ValueError ("Missing required configuration key: "
                           ++ key_error_text k))
      | TypeError v =>
          inl (ValueError ("Failed to load configuration: "
                           ++ type_error_text v))
      end
  end.

(** [Config.from_file]. *)
Definition from_file (load : Load) : PyExn + Loaded :=
  match load with
  | LoadFailed detail =>
      inl (ValueError ("Failed to load configuration: " ++ detail))
  | Parsed config_data => read config_data fields
  end.

End WithText.

(** Every access of [from_file] finds a table holding its key. *)
Definition complete (config_data : Dict) : Prop :=
  forall section key, In (section, key) fields ->
    exists entries v,
      lookup section config_data = Some (Table entries)
      /\ lookup key entries = Some v.

End ConfigFile.

(** ** Choosing the input device ([AudioCapture._find_loopback_device]) *)

(** [str.lower()] of the Python runtime; the model is parametric in it. *)
Class PyText : Type := {
  py_lower : string -> string
}.

(** An instance for concrete runs: lower case of the letters A to Z,
    which is what the runtime does on ASCII text. *)
Definition ascii_lower_char (c : ascii) : ascii :=
  let n := nat_of_ascii c in
  if ((65 <=? n) && (n <=? 90))%nat then ascii_of_nat (n + 32) else c.

Fixpoint ascii_lower (s : string) : string :=
  match s with
  | EmptyString => EmptyString
  | String c s' => String (ascii_lower_char c) (ascii_lower s')
  end.

Definition ascii_text : PyText := {| py_lower := ascii_lower |}.

Module AudioDevices.

(** What PyAudio answers: the number of devices, the [name] entry of the
    info of each device, and the [index] entry of the info of the default
    input device.  [None] is an exception of the call. *)
Record Host : Type := {
  get_device_count : option nat;
  get_device_info_by_index : nat -> option string;
  get_default_input_device_info : option nat
}.

(** How the loop over the devices ends: it returns [i], it runs out of
    devices, or a call raises. *)
Inductive Scan : Type :=
| Found (i : nat)
| Exhausted
| Failed.

Section WithText.

Context {text : PyText}.

(** The test of the loop on a device name. *)
Definition is_loopback (self : AudioCapture.t) (name : string) : bool :=
  PyStr.contains (loopback_device (audio (AudioCapture.config self))) name
  || PyStr.contains "loopback" (py_lower name).

(** [for i in range(count)], from [i] with [remaining] devices to go. *)
Fixpoint scan_devices (host : Host) (self : AudioCapture.t)
  (remaining i : nat) : Scan :=
  match remaining with
  | O => Exhausted
  | S r =>
      match get_device_info_by_index host i with
      | None => Failed
      | Some name =>
          if is_loopback self name then Found i
          else scan_devices host self r (S i)
      end
  end.

(** [_find_loopback_device]; the handler returns 0. *)
Definition _find_loopback_device (host : Host) (self : AudioCapture.t) : nat :=
  match get_device_count host with
  | None => 0%nat
  | Some count =>
      match scan_devices host self count 0 with
      | Found i => i
      | Failed => 0%nat
      | Exhausted =>
          match get_default_input_device_info host with
          | Some index => index
          | None => 0%nat
          end
      end
  end.

End WithText.

End AudioDevices.

(** ** Further concrete data *)

Module Examples.

Import Scenario.

(** [Scenario.cfg] with another burst interval. *)
Definition with_interval (burst_interval : Q) : Config :=
  {| ptp := ptp cfg;
     audio := {| sample_rate := sample_rate (audio cfg);
                 tone_frequency := tone_frequency (audio cfg);
                 burst_duration := burst_duration (audio cfg);
                 burst_interval := burst_interval;
                 device := device (audio cfg);
                 loopback_device := loopback_device (audio cfg) |};
     network := network cfg;
     influxdb := influxdb cfg;
     grafana := grafana cfg;
     logging := logging cfg;
     monitoring := monitoring cfg |}.

(** [Scenario.cfg] with another name for the loopback device. *)
Definition with_loopback (name : string) : Config :=
  {| ptp := ptp cfg;
     audio := {| sample_rate := sample_rate (audio cfg);
                 tone_frequency := tone_frequency (audio cfg);
                 burst_duration := burst_duration (audio cfg);
                 burst_interval := burst_interval (audio cfg);
                 device := device (audio cfg);
                 loopback_device := name |};
     network := network cfg;
     influxdb := influxdb cfg;
     grafana := grafana cfg;
     logging := logging cfg;
     monitoring := monitoring cfg |}.

(** A generator as its constructor leaves it, once started. *)
Definition generator (c : Config) : AudioGenerator.t :=
  {| AudioGenerator.config := c;
     AudioGenerator.ptp_time := PTPTimeManager.init (ptp c);
     AudioGenerator._running := true |}.

Definition burst_at (t0 : Q) : BurstInfo.t :=
  {| BurstInfo.ptp_time := Some t0;
     BurstInfo.system_time := t0;
     BurstInfo.detection_time := t0;
     BurstInfo.expected_time := t0 + 1;
     BurstInfo.latency_ms := - (1000);
     BurstInfo.magnitude := 1 |}.

(** A capture with three records in its history. *)
Definition three_bursts : AudioCapture.t :=
  AudioCapture.append_burst (burst_at 3)
    (AudioCapture.append_burst (burst_at 2)
       (AudioCapture.append_burst (burst_at 1) (AudioCapture.init cfg false))).

(** Three devices, the second a loopback; the default input is the
    first. *)
Definition host : AudioDevices.Host :=
  {| AudioDevices.get_device_count := Some 3%nat;
     AudioDevices.get_device_info_by_index := fun i =>
       match i with
       | 0%nat => Some "HDA Intel PCH"%string
       | 1%nat => Some "Loopback: PCM (hw:2,0)"%string
       | 2%nat => Some "USB Audio"%string
       | _ => None
       end;
     AudioDevices.get_default_input_device_info := Some 0%nat |}.

(** Two devices, neither a loopback; the default input is the second. *)
Definition plain_host : AudioDevices.Host :=
  {| AudioDevices.get_device_count := Some 2%nat;
     AudioDevices.get_device_info_by_index := fun i =>
       match i with
       | 0%nat => Some "HDA Intel PCH"%string
       | 1%nat => Some "USB Audio"%string
       | _ => None
       end;
     AudioDevices.get_default_input_device_info := Some 1%nat |}.

(** A complete configuration document; the domain is a string, which
    loading does not look at. *)
Definition document : ConfigFile.Dict :=
  [ ("ptp", ConfigFile.Table
       [ ("interface", ConfigFile.Str "eth0");
         ("domain", ConfigFile.Str "zero");
         ("priority", ConfigFile.Int 128) ]);
    ("audio", ConfigFile.Table
       [ ("sample_rate", ConfigFile.Int 48000);
         ("tone_frequency", ConfigFile.Int 400);
         ("burst_duration", ConfigFile.Float (1 # 10));
         ("burst_interval", ConfigFile.Float 1);
         ("device", ConfigFile.Str "default");
         ("loopback_device", ConfigFile.Str "Loopback") ]);
    ("network", ConfigFile.Table
       [ ("switch_name", ConfigFile.Str "sw1");
         ("host_name", ConfigFile.Str "node1");
         ("vlan_id", ConfigFile.Int 10);
         ("comment", ConfigFile.Str "not read") ]);
    ("influxdb", ConfigFile.Table
       [ ("url", ConfigFile.Str "http://localhost:8086");
         ("database", ConfigFile.Str "ptpping");
         ("organization", ConfigFile.Str "org");
         ("token", ConfigFile.Str "secret");
         ("retention_days", ConfigFile.Int 30) ]);
    ("grafana", ConfigFile.Table
       [ ("url", ConfigFile.Str "http://localhost:3000");
         ("api_key", ConfigFile.Str "key") ]);
    ("logging", ConfigFile.Table
       [ ("level", ConfigFile.Str "INFO");
         ("file", ConfigFile.Str "ptpping.log");
         ("max_size", ConfigFile.Int 10);
         ("backup_count", ConfigFile.Int 3) ]);
    ("monitoring", ConfigFile.Table
       [ ("system_metrics", ConfigFile.Bool false);
         ("metrics_interval", ConfigFile.Int 60);
         ("webhook_enabled", ConfigFile.Bool false);
         ("webhook_url", ConfigFile.Str "") ]) ]%string.

(** A document that stops after the [ptp] table. *)
Definition ptp_only : ConfigFile.Dict :=
  [ ("ptp", ConfigFile.Table
       [ ("interface", ConfigFile.Str "eth0");
         ("domain", ConfigFile.Int 0);
         ("priority", ConfigFile.Int 128) ]) ]%string.

(** A text for the interpreter's TypeError. *)
Definition type_error_text (v : ConfigFile.Value) : string :=
  "object is not subscriptable"%string.

End Examples.

(** * Properties *)

(** ** Arithmetic *)

Lemma Py_ltb_spec (a b : Q) : Py.ltb a b = true <-> a < b.
Proof.
  unfold Py.ltb. rewrite negb_true_iff.
  destruct (Qle_bool b a) eqn:E; split; intro H; try discriminate; auto.
  - apply Qle_bool_iff in E. exfalso. apply (Qlt_not_le _ _ H E).
  - apply Qnot_le_lt. intro C. apply Qle_bool_iff in C. congruence.
Qed.

Lemma Py_gtb_spec (a b : Q) : Py.gtb a b = true <-> b < a.
Proof. apply (Py_ltb_spec b a). Qed.

Lemma Py_gtb_false (a b : Q) : Py.gtb a b = false <-> a <= b.
Proof. unfold Py.gtb. rewrite negb_false_iff. apply Qle_bool_iff. Qed.

Lemma floordiv_defined (a b : Q) :
  ~ b == 0 -> Py.floordiv a b = Some (inject_Z (Qfloor (a / b))).
Proof.
  intro H. unfold Py.floordiv. destruct (Qeq_bool b 0) eqn:E; auto.
  apply Qeq_bool_eq in E. contradiction.
Qed.

Lemma next_burst_defined (t P : Q) :
  ~ P == 0 -> next_burst t P = Some (next_boundary t P).
Proof. intro H. unfold next_burst. now rewrite floordiv_defined. Qed.

Lemma next_burst_zero (t P : Q) : P == 0 -> next_burst t P = None.
Proof.
  intro H. unfold next_burst, Py.floordiv.
  now rewrite (Qeq_eq_bool _ _ H).
Qed.

Lemma quotient_times (t P : Q) : ~ P == 0 -> t / P * P == t.
Proof. intro H. field. exact H. Qed.

Lemma next_boundary_bounds (t P : Q) :
  0 < P -> t < next_boundary t P /\ next_boundary t P - t <= P.
Proof.
  intro HP.
  assert (HP0 : ~ P == 0) by (intro E; rewrite E in HP; discriminate).
  pose proof (Qfloor_le (t / P)) as Hlo.
  pose proof (Qlt_floor (t / P)) as Hhi.
  rewrite inject_Z_plus in Hhi. change (inject_Z 1) with 1 in Hhi.
  unfold next_boundary. set (q := inject_Z (Qfloor (t / P))) in *.
  pose proof (quotient_times t P HP0) as Hq.
  split.
  - apply Qle_lt_trans with (t / P * P).
    + rewrite Hq. apply Qle_refl.
    + apply Qmult_lt_r; assumption.
  - assert (q * P <= t).
    { apply Qle_trans with (t / P * P).
      - apply Qmult_le_r; assumption.
      - rewrite Hq. apply Qle_refl. }
    lra.
Qed.

Lemma next_boundary_after_last (t P : Q) :
  next_boundary t P == last_boundary t P + P.
Proof. unfold next_boundary, last_boundary. ring. Qed.

Lemma next_boundary_compat (t t' P P' : Q) :
  t == t' -> P == P' -> next_boundary t P == next_boundary t' P'.
Proof.
  intros Ht HP. unfold next_boundary.
  assert (E : Qfloor (t / P) = Qfloor (t' / P')).
  { apply Qfloor_comp. now rewrite Ht, HP. }
  rewrite E, HP. reflexivity.
Qed.

Lemma estimate_compat (r r' P P' d d' o o' : Q) :
  r == r' -> P == P' -> d == d' -> o == o' ->
  fst (AudioCapture.estimate r P d o) == fst (AudioCapture.estimate r' P' d' o')
  /\ snd (AudioCapture.estimate r P d o) == snd (AudioCapture.estimate r' P' d' o').
Proof.
  intros Hr HP Hd Ho. unfold AudioCapture.estimate. cbn [fst snd].
  pose proof (next_boundary_compat _ _ _ _ Hr HP) as Hn.
  rewrite Hn, Hd, Ho. split; reflexivity.
Qed.

Lemma py_slice_from_tail {A : Type} (count : Z) (xs : list A) :
  (0 < count)%Z ->
  py_slice_from (- count) xs
  = skipn (List.length xs - Z.to_nat count) xs.
Proof.
  intro H. unfold py_slice_from.
  destruct (- count <? 0)%Z eqn:E; [|apply Z.ltb_ge in E; lia].
  f_equal. lia.
Qed.

(** C2.  For a positive period the next boundary
    [(floor(t / P) + 1) * P], which is what [(t // P + 1) * P] evaluates
    to, lies strictly after [t] and at most one period ahead, also when
    [t] is itself a multiple of the period. *)
Theorem next_boundary_strictly_future (t P : Q) :
  0 < P ->
  next_burst t P = Some (next_boundary t P)
  /\ t < next_boundary t P
  /\ next_boundary t P - t <= P.
Proof.
  intro HP. split.
  - apply next_burst_defined. intro E. rewrite E in HP. discriminate.
  - now apply next_boundary_bounds.
Qed.

(** ** Configuration *)

Lemma evenly_divides_mod (f s : Z) :
  f <> 0%Z -> ((s mod f =? 0)%Z = true <-> evenly_divides f s).
Proof.
  intro Hf. rewrite Z.eqb_eq. unfold evenly_divides.
  rewrite (Z.mod_divide s f Hf). tauto.
Qed.

Lemma in_byte_range_test (n : Z) :
  ((n <? 0) || (n >? 255))%Z = false <-> in_byte_range n.
Proof.
  unfold in_byte_range. rewrite orb_false_iff, Z.ltb_ge, Z.gtb_ltb, Z.ltb_ge. tauto.
Qed.

Lemma validate_accepts (c : Config) :
  validate c = inr true <-> ~ config_violation c.
Proof.
  unfold validate, config_violation.
  destruct (tone_frequency (audio c) =? 0)%Z eqn:Ez.
  { apply Z.eqb_eq in Ez. split; [discriminate|].
    intro H. exfalso. apply H. left. intros [Hnz _]. contradiction. }
  apply Z.eqb_neq in Ez.
  pose proof (evenly_divides_mod _ (sample_rate (audio c)) Ez) as Hd.
  destruct (sample_rate (audio c) mod tone_frequency (audio c) =? 0)%Z eqn:Em; cbn [negb].
  2:{ split; [discriminate|]. intro H. exfalso. apply H. left.
      intro D. apply Hd in D. discriminate. }
  destruct (Qle_bool (burst_duration (audio c)) 0) eqn:Ed; cbn [orb].
  { split; [discriminate|]. intro H. exfalso. apply H. right. left.
    now apply Qle_bool_iff. }
  destruct (Qle_bool (burst_interval (audio c)) 0) eqn:Ei.
  { split; [discriminate|]. intro H. exfalso. apply H. right. right. left.
    now apply Qle_bool_iff. }
  destruct (Qle_bool (burst_interval (audio c)) (burst_duration (audio c))) eqn:El.
  { split; [discriminate|]. intro H. exfalso. apply H. do 3 right. left.
    now apply Qle_bool_iff. }
  pose proof (in_byte_range_test (domain (ptp c))) as Hdom.
  destruct ((domain (ptp c) <? 0) || (domain (ptp c) >? 255))%Z eqn:Edom.
  { split; [discriminate|]. intro H. exfalso. apply H. do 4 right. left.
    intro R. apply Hdom in R. discriminate. }
  pose proof (in_byte_range_test (priority (ptp c))) as Hpri.
  destruct ((priority (ptp c) <? 0) || (priority (ptp c) >? 255))%Z eqn:Epri.
  { split; [discriminate|]. intro H. exfalso. apply H. do 5 right.
    intro R. apply Hpri in R. discriminate. }
  split; [|reflexivity]. intros _ V.
  assert (Hb : forall x y, Qle_bool x y = false -> ~ x <= y).
  { intros x y E L. apply Qle_bool_iff in L. congruence. }
  destruct V as [V|[V|[V|[V|[V|V]]]]].
  - apply V, Hd. reflexivity.
  - exact (Hb _ _ Ed V).
  - exact (Hb _ _ Ei V).
  - exact (Hb _ _ El V).
  - apply V, Hdom. reflexivity.
  - apply V, Hpri. reflexivity.
Qed.

Lemma validate_total (c : Config) :
  validate c = inr true \/ exists e, validate c = inl e.
Proof.
  unfold validate.
  repeat match goal with
         | |- context [if ?b then _ else _] => destruct b
         end; eauto.
Qed.

(** C7.  [Config.validate] raises exactly for the configurations that
    violate a stated invariant, and returns [True] exactly for those
    that violate none. *)
Theorem validate_rejects_exactly_violations (c : Config) :
  ((exists e, validate c = inl e) <-> config_violation c)
  /\ (validate c = inr true <-> ~ config_violation c).
Proof.
  split; [|apply validate_accepts].
  split.
  - intros [e He].
    unfold validate, config_violation in *.
    destruct (tone_frequency (audio c) =? 0)%Z eqn:Ez.
    { apply Z.eqb_eq in Ez. left. intros [Hnz _]. contradiction. }
    apply Z.eqb_neq in Ez.
    pose proof (evenly_divides_mod _ (sample_rate (audio c)) Ez) as Hd.
    destruct (sample_rate (audio c) mod tone_frequency (audio c) =? 0)%Z eqn:Em;
      cbn [negb] in He.
    2:{ left. intro D. apply Hd in D. discriminate. }
    destruct (Qle_bool (burst_duration (audio c)) 0) eqn:Ed; cbn [orb] in He.
    { right. left. now apply Qle_bool_iff. }
    destruct (Qle_bool (burst_interval (audio c)) 0) eqn:Ei.
    { right. right. left. now apply Qle_bool_iff. }
    destruct (Qle_bool (burst_interval (audio c)) (burst_duration (audio c))) eqn:El.
    { do 3 right. left. now apply Qle_bool_iff. }
    pose proof (in_byte_range_test (domain (ptp c))) as Hdom.
    destruct ((domain (ptp c) <? 0) || (domain (ptp c) >? 255))%Z eqn:Edom.
    { do 4 right. left. intro R. apply Hdom in R. discriminate. }
    pose proof (in_byte_range_test (priority (ptp c))) as Hpri.
    destruct ((priority (ptp c) <? 0) || (priority (ptp c) >? 255))%Z eqn:Epri.
    { do 5 right. intro R. apply Hpri in R. discriminate. }
    discriminate.
  - intro V. destruct (validate_total c) as [Hok|Hex]; [|exact Hex].
    apply validate_accepts in Hok. contradiction.
Qed.

(** C10.  [Config.validate] raises ZeroDivisionError exactly when
    [tone_frequency] is zero, whatever the other fields hold: the modulo
    is evaluated before every controlled check, and with a non-zero
    frequency no ZeroDivisionError occurs. *)
Theorem validate_zero_frequency (c : Config) :
  validate c = inl ZeroDivisionError <-> tone_frequency (audio c) = 0%Z.
Proof.
  unfold validate.
  destruct (tone_frequency (audio c) =? 0)%Z eqn:Ez.
  - apply Z.eqb_eq in Ez. tauto.
  - apply Z.eqb_neq in Ez.
    split; [|contradiction].
    repeat match goal with
           | |- context [if ?b then _ else _] => destruct b
           end; discriminate.
Qed.

(** ** The clock source *)

Module PTPTimeManagerFacts.

Import PTPTimeManager.

Section WithRuntime.

Context {runtime : PyParse}.

Lemma clock_only_refl sys : clock_only sys sys.
Proof. split; auto. Qed.

Lemma clock_only_trans a b c : clock_only a b -> clock_only b c -> clock_only a c.
Proof. intros [H1 H2] [H3 H4]. split; [lia|congruence]. Qed.

Lemma clock_only_next sys : clock_only sys (next_tick sys).
Proof. split; cbn; auto. Qed.

(** [_check_ptp_sync] only sets the flag. *)
Lemma check_ptp_sync_run env sys self :
  exists b sys',
    _check_ptp_sync env sys self = (tt, sys', set_ptp_sync b self)
    /\ clock_only sys sys'.
Proof.
  unfold _check_ptp_sync, bind, subprocess_run, modify, get.
  destruct (spawn env pgrep_argv (tick sys)) as [rc out| |]; cbn.
  - destruct (rc =? 0)%Z; cbn.
    + destruct (spawn env (pmc_argv self) (S (tick sys))) as [rc' out'| |]; cbn.
      * destruct (if (rc' =? 0)%Z then scan_clock_class out' else None); cbn;
          eexists; eexists; (split; [reflexivity|]); split; cbn; auto.
      * eexists; eexists; (split; [reflexivity|]); split; cbn; auto.
      * eexists; eexists; (split; [reflexivity|]); split; cbn; auto.
    + eexists; eexists; (split; [reflexivity|]); split; cbn; auto.
  - eexists; eexists; (split; [reflexivity|]); split; cbn; auto.
  - eexists; eexists; (split; [reflexivity|]); split; cbn; auto.
Qed.

Lemma refresh_if_due_run env sys self now :
  exists sys' self',
    refresh_if_due now env sys self = (tt, sys', self')
    /\ clock_only sys sys' /\ config self' = config self
    /\ _sync_check_interval self' = _sync_check_interval self.
Proof.
  unfold refresh_if_due, bind, get.
  destruct (Py.gtb _ _).
  - destruct (check_ptp_sync_run env sys self) as (b & sys' & E & F).
    rewrite E. unfold modify. do 2 eexists. split; [reflexivity|]. auto.
  - unfold ret. do 2 eexists. split; [reflexivity|]. split; [apply clock_only_refl|auto].
Qed.

Lemma phc_ctl_argv_config a b : config a = config b -> phc_ctl_argv a = phc_ctl_argv b.
Proof. unfold phc_ctl_argv. now intros ->. Qed.

(** Every call of [get_ptp_time] returns a float; without a usable
    reference it is the reading of the call's last [time.time()]. *)
Lemma get_ptp_time_run env sys self :
  exists v sys' self',
    get_ptp_time env sys self = (Some v, sys', self')
    /\ clock_only sys sys' /\ (tick sys < tick sys')%nat
    /\ config self' = config self
    /\ _sync_check_interval self' = _sync_check_interval self
    /\ (no_reference env self \/ _ptp_sync self' = false ->
        v = clock env (Nat.pred (tick sys'))).
Proof.
  unfold get_ptp_time, bind, time_time.
  destruct (refresh_if_due_run env (next_tick sys) self (clock env (tick sys)))
    as (sys1 & self1 & E & [F1 F2] & C & I).
  rewrite E. unfold get. cbn in F1, F2.
  destruct (_ptp_sync self1) eqn:Y; cbn.
  - unfold subprocess_run.
    destruct (phc_reading (spawn env (phc_ctl_argv self1) (tick sys1))) eqn:R; cbn.
    + do 3 eexists. split; [reflexivity|]. cbn.
      split; [split; cbn; [lia|assumption]|].
      split; [lia|]. split; [assumption|]. split; [assumption|].
      intros [N|N]; [|congruence].
      rewrite (phc_ctl_argv_config _ _ C), N in R. discriminate.
    + do 3 eexists. split; [reflexivity|]. cbn.
      split; [split; cbn; [lia|assumption]|].
      split; [lia|]. split; [assumption|]. split; [assumption|].
      intros _. reflexivity.
  - do 3 eexists. split; [reflexivity|]. cbn.
    split; [split; cbn; [lia|assumption]|].
    split; [lia|]. split; [assumption|]. split; [assumption|].
    intros _. reflexivity.
Qed.

Lemma get_timestamp_run env sys self :
  exists v sys1 self',
    get_ptp_time env sys self = (Some v, sys1, self')
    /\ get_timestamp env sys self
       = ((Some v, clock env (tick sys1)), next_tick sys1, self').
Proof.
  destruct (get_ptp_time_run env sys self) as (v & sys1 & self' & E & _).
  exists v, sys1, self'. split; [exact E|].
  unfold get_timestamp, bind. rewrite E. reflexivity.
Qed.

Lemma calculate_offset_run env sys self :
  exists v sys1 self',
    get_ptp_time env sys self = (Some v, sys1, self')
    /\ calculate_offset env sys self
       = (Some (v - clock env (tick sys1)), next_tick sys1, self').
Proof.
  destruct (get_timestamp_run env sys self) as (v & sys1 & self' & E & T).
  exists v, sys1, self'. split; [exact E|].
  unfold calculate_offset, bind. rewrite T. reflexivity.
Qed.

Lemma is_synchronized_run env sys self :
  exists sys' self',
    is_synchronized env sys self = (_ptp_sync self', sys', self')
    /\ clock_only sys sys' /\ config self' = config self.
Proof.
  unfold is_synchronized, bind, time_time.
  destruct (refresh_if_due_run env (next_tick sys) self (clock env (tick sys)))
    as (sys1 & self1 & E & [F1 F2] & C & I).
  rewrite E. do 2 eexists. split; [reflexivity|].
  cbn in F1, F2. split; [split; [lia|assumption]|assumption].
Qed.

Lemma phc_failure_iff (o : RunOutcome) : phc_failure o <-> phc_reading o = None.
Proof.
  split.
  - intros [| |rc out H|out H]; cbn; auto.
    apply Z.eqb_neq in H. now rewrite H.
  - destruct o as [rc out| |]; cbn; intro H.
    + destruct (rc =? 0)%Z eqn:E.
      * apply Z.eqb_eq in E. subst rc. now apply phc_malformed.
      * apply Z.eqb_neq in E. now apply phc_exit_code.
    + apply phc_timeout.
    + apply phc_unreachable.
Qed.

(** C5 (as amended).  [get_ptp_time] never raises and never returns an
    absent value: every path ends in a float.  Whenever the reference
    clock cannot be used, because every [phc_ctl] query fails (command
    missing, timeout, error exit, no parsable time) or because the
    source is unsynchronized, the value returned is the reading of the
    local clock taken by the call's last effect, handed back in place of
    the reference time. *)
Theorem get_ptp_time_falls_back_to_local_time env sys self :
  exists v,
    fst (fst (get_ptp_time env sys self)) = Some v
    /\ ((forall n, phc_failure (spawn env (phc_ctl_argv self) n))
         \/ _ptp_sync (snd (get_ptp_time env sys self)) = false ->
        v = clock env (Nat.pred (tick (snd (fst (get_ptp_time env sys self)))))).
Proof.
  destruct (get_ptp_time_run env sys self)
    as (v & sys' & self' & E & _ & _ & _ & _ & L).
  exists v. rewrite E. cbn. split; [reflexivity|].
  intros [F|U]; apply L; [left|right; exact U].
  intro n. apply phc_failure_iff, F.
Qed.

Lemma locked_or_holdover_spec (c : Z) :
  locked_or_holdover c = true <-> (c = 6 \/ c = 7)%Z.
Proof.
  unfold locked_or_holdover. rewrite orb_true_iff, !Z.eqb_eq. tauto.
Qed.

Lemma check_ptp_sync_signals env sys self :
  _ptp_sync (snd (_check_ptp_sync env sys self)) = true
  <-> daemon_present (spawn env pgrep_argv (tick sys))
      /\ class_locked_or_holdover (spawn env (pmc_argv self) (S (tick sys))).
Proof.
  unfold _check_ptp_sync, bind, subprocess_run, modify, get,
    daemon_present, class_locked_or_holdover.
  destruct (spawn env pgrep_argv (tick sys)) as [rc out| |]; cbn.
  2,3: split; [discriminate|intros [[? ?] _]; discriminate].
  destruct (rc =? 0)%Z eqn:Erc; cbn.
  2:{ split; [discriminate|]. intros [[o H] _]. inversion H; subst.
      discriminate. }
  apply Z.eqb_eq in Erc. subst rc.
  destruct (spawn env (pmc_argv self) (S (tick sys))) as [rc' out'| |]; cbn.
  2,3: split; [discriminate|intros [_ (? & ? & ? & _)]; discriminate].
  destruct (rc' =? 0)%Z eqn:Erc'; cbn.
  2:{ split; [discriminate|]. intros [_ (o & c & H & _)]. inversion H; subst.
      discriminate. }
  apply Z.eqb_eq in Erc'. subst rc'.
  destruct (scan_clock_class out') as [c|] eqn:Ec; cbn.
  - rewrite locked_or_holdover_spec. split.
    + intro H. split; [now exists out|]. exists out', c. auto.
    + intros [_ (o & c' & H & Hs & Hc)]. inversion H; subst. congruence.
  - split; [discriminate|]. intros [_ (o & c' & H & Hs & _)].
    inversion H; subst. congruence.
Qed.

Lemma is_synchronized_value env sys self :
  fst (fst (is_synchronized env sys self))
  = if Py.gtb (clock env (tick sys) - _last_sync_check self)
              (_sync_check_interval self)
    then _ptp_sync (snd (_check_ptp_sync env (next_tick sys) self))
    else _ptp_sync self.
Proof.
  unfold is_synchronized, refresh_if_due, bind, time_time, get.
  destruct (Py.gtb _ _); [|reflexivity].
  destruct (check_ptp_sync_run env (next_tick sys) self) as (b & sys' & E & _).
  rewrite E. reflexivity.
Qed.

(** C6.  After [_check_ptp_sync] the cached flag is true exactly when
    [pgrep] found the daemon and [pmc] succeeded with a first
    [CLOCK_CLASS] line that parses to class 6 or 7; a timeout, an
    exception, an error exit and a missing or unparsable line all leave
    it false.  [is_synchronized] returns the flag of that refresh when
    one is due, and the cached flag otherwise. *)
Theorem check_ptp_sync_flag env sys self :
  (_ptp_sync (snd (_check_ptp_sync env sys self)) = true
   <-> daemon_present (spawn env pgrep_argv (tick sys))
       /\ class_locked_or_holdover (spawn env (pmc_argv self) (S (tick sys))))
  /\ fst (fst (is_synchronized env sys self))
     = (if Py.gtb (clock env (tick sys) - _last_sync_check self)
                  (_sync_check_interval self)
        then _ptp_sync (snd (_check_ptp_sync env (next_tick sys) self))
        else _ptp_sync self).
Proof.
  split; [apply check_ptp_sync_signals|apply is_synchronized_value].
Qed.

End WithRuntime.

End PTPTimeManagerFacts.

(** ** The scheduler *)

Module AudioGeneratorFacts.

Import AudioGenerator.
Import PTPTimeManagerFacts.

Section WithRuntime.

Context {runtime : PyParse}.

(** With a positive period one call of [_wait_for_next_burst] sleeps
    until the next boundary after the time it read: a positive duration
    of at most one period. *)
Lemma wait_for_next_burst_sleeps env sys self :
  0 < burst_interval (audio (config self)) ->
  exists now sys' self',
    _wait_for_next_burst env sys self
    = (Slept (next_boundary now (burst_interval (audio (config self))) - now),
       sys', self')
    /\ 0 < next_boundary now (burst_interval (audio (config self))) - now
    /\ next_boundary now (burst_interval (audio (config self))) - now
       <= burst_interval (audio (config self)).
Proof.
  intro HP.
  assert (NZ : ~ burst_interval (audio (config self)) == 0)
    by (intro E; rewrite E in HP; discriminate).
  destruct (get_ptp_time_run env sys (ptp_time self))
    as (now & sys' & m' & E & _).
  destruct (next_boundary_bounds now _ HP) as [B1 B2].
  assert (W : 0 < next_boundary now (burst_interval (audio (config self))) - now)
    by lra.
  exists now, sys', (set_ptp_time m' self).
  split; [|split; assumption].
  unfold _wait_for_next_burst, bind, zoom. rewrite E. unfold get.
  cbn [config set_ptp_time].
  rewrite (next_burst_defined _ _ NZ).
  apply Py_gtb_spec in W. rewrite W. reflexivity.
Qed.

End WithRuntime.

End AudioGeneratorFacts.

(** ** Detection and latency *)

Module AudioCaptureFacts.

Import AudioCapture.
Import PTPTimeManagerFacts.

Section WithRuntime.

Context {runtime : PyParse}.

Lemma on_ptp_run {A} (m : M PTPTimeManager.t A) env sys self :
  on_ptp m env sys self
  = (let '(a, sys', m') := m env sys (ptp_time self) in
     (a, sys', set_ptp_time m' self)).
Proof. reflexivity. Qed.

Lemma capture_get_ptp_time env sys self :
  exists v sys' m',
    on_ptp PTPTimeManager.get_ptp_time env sys self
    = (Some v, sys', set_ptp_time m' self)
    /\ answered env self sys v sys' m'.
Proof.
  destruct (get_ptp_time_run env sys (ptp_time self))
    as (v & sys' & m' & E & F & T & C & _ & L).
  exists v, sys', m'. rewrite on_ptp_run, E.
  split; [reflexivity|]. split; [exact F|]. split; [exact T|].
  split; [exact C|]. intro N. apply L. left. exact N.
Qed.

Lemma reference_absent_step env self m' :
  PTPTimeManager.config m' = PTPTimeManager.config (ptp_time self) ->
  reference_absent env self -> reference_absent env (set_ptp_time m' self).
Proof.
  unfold reference_absent, PTPTimeManager.no_reference. cbn.
  intros C N n. rewrite (phc_ctl_argv_config _ _ C). apply N.
Qed.

Lemma capture_get_timestamp env sys self :
  exists v sys1 m',
    on_ptp PTPTimeManager.get_timestamp env sys self
    = ((Some v, clock env (tick sys1)), next_tick sys1, set_ptp_time m' self)
    /\ answered env self sys v sys1 m'.
Proof.
  destruct (get_ptp_time_run env sys (ptp_time self))
    as (v & sys1 & m' & E & F & T & C & _ & L).
  exists v, sys1, m'. split.
  - rewrite on_ptp_run. unfold PTPTimeManager.get_timestamp, bind.
    rewrite E. reflexivity.
  - split; [exact F|]. split; [exact T|]. split; [exact C|].
    intro N. apply L. left. exact N.
Qed.

Lemma capture_calculate_offset env sys self :
  exists v sys1 m',
    on_ptp PTPTimeManager.calculate_offset env sys self
    = (Some (v - clock env (tick sys1)), next_tick sys1, set_ptp_time m' self)
    /\ answered env self sys v sys1 m'.
Proof.
  destruct (get_ptp_time_run env sys (ptp_time self))
    as (v & sys1 & m' & E & F & T & C & _ & L).
  exists v, sys1, m'. split.
  - rewrite on_ptp_run.
    unfold PTPTimeManager.calculate_offset, PTPTimeManager.get_timestamp, bind.
    rewrite E. reflexivity.
  - split; [exact F|]. split; [exact T|]. split; [exact C|].
    intro N. apply L. left. exact N.
Qed.

Lemma calculate_expected_zero env sys self :
  burst_interval (audio (config self)) == 0 ->
  exists sys' m',
    _calculate_expected_burst_time env sys self = (None, sys', set_ptp_time m' self)
    /\ clock_only sys sys'.
Proof.
  intro Z0.
  destruct (capture_get_ptp_time env sys self) as (v & sys1 & m1 & E & F & _).
  exists sys1, m1. unfold _calculate_expected_burst_time, bind.
  rewrite E. unfold get. cbn [config set_ptp_time].
  rewrite (next_burst_zero _ _ Z0). split; [reflexivity|exact F].
Qed.

Lemma calculate_expected_run env sys self :
  ~ burst_interval (audio (config self)) == 0 ->
  exists ref sys1 m1 v2 s2 m2,
    on_ptp PTPTimeManager.get_ptp_time env sys self
    = (Some ref, sys1, set_ptp_time m1 self)
    /\ on_ptp PTPTimeManager.calculate_offset env sys1 (set_ptp_time m1 self)
       = (Some (v2 - clock env (tick s2)), next_tick s2, set_ptp_time m2 self)
    /\ _calculate_expected_burst_time env sys self
       = (Some (next_boundary ref (burst_interval (audio (config self))) - (v2 - clock env (tick s2))),
          next_tick s2, set_ptp_time m2 self)
    /\ answered env self sys ref sys1 m1
    /\ answered env (set_ptp_time m1 self) sys1 v2 s2 m2.
Proof.
  intro NZ.
  destruct (capture_get_ptp_time env sys self) as (ref & sys1 & m1 & E & A1).
  destruct (capture_calculate_offset env sys1 (set_ptp_time m1 self))
    as (v2 & s2 & m2 & O & A2).
  exists ref, sys1, m1, v2, s2, m2.
  split; [exact E|]. split; [exact O|]. split; [|split; assumption].
  unfold _calculate_expected_burst_time, bind.
  rewrite E. unfold get. cbn [config set_ptp_time].
  rewrite (next_burst_defined _ _ NZ), O. reflexivity.
Qed.

Lemma send_to_influxdb_run env sys self b :
  exists sys' m',
    _send_to_influxdb b env sys self = (tt, sys', set_ptp_time m' self)
    /\ (tick sys <= tick sys')%nat
    /\ PTPTimeManager.config m' = PTPTimeManager.config (ptp_time self)
    /\ influx sys'
       = influx sys
         ++ (if _write_api self
             then [(database (influxdb (config self)),
                    latency_point (config self) b (PTPTimeManager._ptp_sync m'))]
             else []).
Proof.
  unfold _send_to_influxdb, bind, get.
  destruct (_write_api self); cbn [negb].
  - destruct (is_synchronized_run env sys (ptp_time self))
      as (sys1 & m1 & E & [F1 F2] & C).
    rewrite on_ptp_run, E. unfold influx_write. cbn.
    exists {| tick := tick sys1;
              influx := influx sys1 ++
                [(database (influxdb (config self)),
                  latency_point (config self) b (PTPTimeManager._ptp_sync m1))] |}, m1.
    split; [reflexivity|]. cbn. split; [exact F1|]. split; [exact C|].
    now rewrite F2.
  - exists sys, (ptp_time self). unfold ret. cbn.
    split; [destruct self; reflexivity|]. split; [lia|]. split; [reflexivity|].
    now rewrite app_nil_r.
Qed.

(** A detection cycle with a non-zero period, step by step: the record
    it appends, the queries behind it and the write to the sink. *)
Lemma detect_burst_run env sys self det mag :
  ~ burst_interval (audio (config self)) == 0 ->
  exists p s ref off sys' m',
    let b := {| BurstInfo.ptp_time := Some p;
                BurstInfo.system_time := s;
                BurstInfo.detection_time := det;
                BurstInfo.expected_time := next_boundary ref (burst_interval (audio (config self))) - off;
                BurstInfo.latency_ms :=
                  (det - (next_boundary ref (burst_interval (audio (config self))) - off)) * 1000;
                BurstInfo.magnitude := mag |} in
    queried_reference env sys self = Some ref
    /\ queried_offset env sys self = Some off
    /\ _detect_burst det mag env sys self
       = (tt, sys', append_burst b (set_ptp_time m' self))
    /\ (tick sys < tick sys')%nat
    /\ PTPTimeManager.config m' = PTPTimeManager.config (ptp_time self)
    /\ influx sys'
       = influx sys
         ++ (if _write_api self
             then [(database (influxdb (config self)),
                    latency_point (config self) b (PTPTimeManager._ptp_sync m'))]
             else [])
    /\ (reference_absent env self ->
        exists k0 k1 k2 k3 k4,
          p = clock env k0 /\ s = clock env k1 /\ ref = clock env k2
          /\ off = clock env k3 - clock env k4).
Proof.
  intro NZ.
  destruct (capture_get_timestamp env sys self) as (p & sys0 & m0 & T0 & A0).
  set (self0 := set_ptp_time m0 self) in *.
  assert (NZ0 : ~ burst_interval (audio (config self0)) == 0) by exact NZ.
  destruct (calculate_expected_run env (next_tick sys0) self0 NZ0)
    as (ref & sys1 & m1 & v2 & s2 & m2 & E1 & O1 & X1 & A1 & A2).
  set (b := {| BurstInfo.ptp_time := Some p;
               BurstInfo.system_time := clock env (tick sys0);
               BurstInfo.detection_time := det;
               BurstInfo.expected_time :=
                 next_boundary ref (burst_interval (audio (config self))) - (v2 - clock env (tick s2));
               BurstInfo.latency_ms :=
                 (det - (next_boundary ref (burst_interval (audio (config self)))
                         - (v2 - clock env (tick s2)))) * 1000;
               BurstInfo.magnitude := mag |}).
  destruct (send_to_influxdb_run env (next_tick s2)
              (append_burst b (set_ptp_time m2 self0)) b)
    as (sys' & m' & S & TS & CS & IS).
  exists p, (clock env (tick sys0)), ref, (v2 - clock env (tick s2)), sys', m'.
  cbv zeta. fold b.
  split.
  { unfold queried_reference. rewrite T0. fold self0. now rewrite E1. }
  split.
  { unfold queried_offset. rewrite T0. fold self0. rewrite E1. now rewrite O1. }
  split.
  { unfold _detect_burst, bind. rewrite T0. fold self0. rewrite X1.
    unfold modify. cbn [fst snd]. fold b.
    etransitivity; [exact S|]. reflexivity. }
  destruct A0 as ([F0 G0] & L0 & C0 & R0), A1 as ([F1 G1] & L1 & C1 & R1),
    A2 as ([F2 G2] & L2 & C2 & R2).
  cbn in *.
  split; [lia|].
  split; [congruence|].
  split.
  { rewrite IS. cbn. rewrite G2, G1, G0. reflexivity. }
  intro N.
  assert (N0 : reference_absent env self0)
    by (apply reference_absent_step; assumption).
  assert (N1 : reference_absent env (set_ptp_time m1 self0))
    by (apply reference_absent_step; assumption).
  exists (Nat.pred (tick sys0)), (tick sys0), (Nat.pred (tick sys1)),
    (Nat.pred (tick s2)), (tick s2).
  rewrite (R0 N), (R1 N0), (R2 N1). repeat split; reflexivity.
Qed.


(** What a detection cycle leaves alone, for any period. *)
Lemma detect_burst_frame env sys self det mag :
  exists sys' self',
    _detect_burst det mag env sys self = (tt, sys', self')
    /\ (tick sys < tick sys')%nat
    /\ same_detector self self'
    /\ _last_burst_time self' = _last_burst_time self
    /\ (~ burst_interval (audio (config self)) == 0 ->
        exists b, _detected_bursts self' = _detected_bursts self ++ [b]
                  /\ BurstInfo.detection_time b = det)
    /\ (burst_interval (audio (config self)) == 0 -> _detected_bursts self' = _detected_bursts self).
Proof.
  destruct (Qeq_dec (burst_interval (audio (config self))) 0) as [Z0|NZ].
  - destruct (capture_get_timestamp env sys self) as (p & sys0 & m0 & T0 & A0).
    set (self0 := set_ptp_time m0 self) in *.
    assert (Z1 : burst_interval (audio (config self0)) == 0) by exact Z0.
    destruct (calculate_expected_zero env (next_tick sys0) self0 Z1)
      as (sys1 & m1 & X & [F1 _]).
    exists sys1, (set_ptp_time m1 self0). split.
    { unfold _detect_burst, bind. rewrite T0. fold self0. rewrite X. reflexivity. }
    destruct A0 as ([F0 _] & L0 & _). cbn in *.
    split; [lia|]. split; [repeat split|]. split; [reflexivity|].
    split; [intro; contradiction|reflexivity].
  - destruct (detect_burst_run env sys self det mag NZ)
      as (p & s & ref & off & sys' & m' & _ & _ & E & T & _).
    cbv zeta in E. eexists; eexists. split; [exact E|].
    split; [exact T|]. split; [repeat split|]. split; [reflexivity|].
    split; [|intro; contradiction].
    intros _. eexists. split; reflexivity.
Qed.

Lemma same_detector_refl self : same_detector self self.
Proof. repeat split. Qed.

Lemma same_detector_trans a b c :
  same_detector a b -> same_detector b c -> same_detector a c.
Proof.
  unfold same_detector. intros (A1 & A2 & A3 & A4) (B1 & B2 & B3 & B4).
  repeat split; congruence.
Qed.

(** One window: the event tells what happened to the debounce state. *)
Lemma process_audio_chunk_run env sys self w :
  exists e sys' self',
    _process_audio_chunk w env sys self = (e, sys', self')
    /\ (tick sys <= tick sys')%nat
    /\ same_detector self self'
    /\ match e with
       | Quiet =>
           Py.gtb w (_detection_threshold self) = false
           /\ _last_burst_time self' = _last_burst_time self
           /\ _detected_bursts self' = _detected_bursts self
       | Discarded t0 =>
           Py.gtb w (_detection_threshold self) = true
           /\ t0 = clock env (tick sys)
           /\ Py.gtb (t0 - _last_burst_time self) (_min_burst_gap self) = false
           /\ _last_burst_time self' = _last_burst_time self
           /\ _detected_bursts self' = _detected_bursts self
       | Accepted t0 m =>
           Py.gtb w (_detection_threshold self) = true
           /\ t0 = clock env (tick sys) /\ m = w
           /\ Py.gtb (t0 - _last_burst_time self) (_min_burst_gap self) = true
           /\ _last_burst_time self' = t0
           /\ (tick sys < tick sys')%nat
           /\ (~ burst_interval (audio (config self)) == 0 ->
               exists b, _detected_bursts self' = _detected_bursts self ++ [b]
                         /\ BurstInfo.detection_time b = t0)
       end.
Proof.
  unfold _process_audio_chunk, bind, get.
  destruct (Py.gtb w (_detection_threshold self)) eqn:H.
  2:{ exists Quiet, sys, self. unfold ret.
      split; [reflexivity|]. split; [lia|]. split; [apply same_detector_refl|].
      auto. }
  unfold time_time.
  destruct (Py.gtb (clock env (tick sys) - _last_burst_time self)
              (_min_burst_gap self)) eqn:G.
  2:{ exists (Discarded (clock env (tick sys))), (next_tick sys), self. unfold ret.
      split; [reflexivity|]. split; [cbn; lia|].
      split; [apply same_detector_refl|]. auto. }
  destruct (detect_burst_frame env (next_tick sys) self (clock env (tick sys)) w)
    as (sys' & self' & E & T & SD & L & HN & HZ).
  rewrite E. unfold modify, ret.
  exists (Accepted (clock env (tick sys)) w), sys',
    (set_last_burst_time (clock env (tick sys)) self').
  split; [reflexivity|]. cbn in T. split; [lia|].
  split; [exact SD|].
  split; [reflexivity|]. split; [reflexivity|]. split; [reflexivity|].
  split; [exact G|]. split; [reflexivity|]. split; [lia|]. exact HN.
Qed.

(** One step of the audio callback. *)
Lemma feed_cons env sys self w ws :
  feed (w :: ws) env sys self
  = (let '(e, sys1, self1) := _process_audio_chunk w env sys self in
     let '(es, sys2, self2) := feed ws env sys1 self1 in
     (e :: es, sys2, self2)).
Proof.
  cbn [feed]. unfold bind.
  destruct (_process_audio_chunk w env sys self) as [[e sys1] self1].
  destruct (feed ws env sys1 self1) as [[es sys2] self2]. reflexivity.
Qed.

(** The acceptance flags of a run are those of the debounce rule applied
    to the detection times of its raw hits. *)
Lemma feed_refines_debounce ws : forall env sys self es sys' self',
  feed ws env sys self = (es, sys', self') ->
  map snd (raw_hits es)
  = debounce (_min_burst_gap self) (_last_burst_time self) (map fst (raw_hits es)).
Proof.
  induction ws as [|w ws IH]; intros env sys self es sys' self' F.
  - inversion F; subst. reflexivity.
  - rewrite feed_cons in F.
    destruct (process_audio_chunk_run env sys self w)
      as (e & sys1 & self1 & E & T & (_ & _ & _ & SG) & P).
    rewrite E in F.
    destruct (feed ws env sys1 self1) as [[es1 sys2] self2] eqn:F1.
    inversion F; subst es sys' self'. clear F.
    specialize (IH _ _ _ _ _ _ F1).
    destruct e as [|t0|t0 m]; cbn [raw_hits map fst snd debounce].
    + destruct P as (_ & L & _). rewrite IH, SG, L. reflexivity.
    + destruct P as (_ & _ & G & L & _). rewrite G, IH, SG, L. reflexivity.
    + destruct P as (_ & _ & _ & G & L & _). rewrite G, IH, SG, L. reflexivity.
Qed.

Lemma get_recent_bursts_tail (self : t) (count : Z) :
  (0 < count)%Z ->
  get_recent_bursts self count
  = skipn (List.length (_detected_bursts self) - Z.to_nat count)
          (_detected_bursts self).
Proof.
  intro H. unfold get_recent_bursts.
  destruct (_detected_bursts self) as [|b bs] eqn:E.
  - now rewrite skipn_nil.
  - rewrite <- E. now apply py_slice_from_tail.
Qed.

Lemma scenario_numbers (ref P off : Q) :
  ref == 103 # 10 -> P == 1 -> off == 0 ->
  next_boundary ref P - off == 11
  /\ ((10301 # 1000) - (next_boundary ref P - off)) * 1000 == - (699).
Proof.
  intros Hr HP Ho.
  rewrite (next_boundary_compat _ _ _ _ Hr HP), Ho.
  split; reflexivity.
Qed.

(** C1 (as amended).  For a positive period the capture side computes
    [(floor(reference_time / period) + 1) * period - offset]: the
    boundary following the queried reference time, one period after the
    most recently elapsed one, moved to the local clock by the offset of
    a further query.  With a reference time of 10.3, a period of 1 and
    an offset of 0 this is 11, and a detection at 10.301 has a latency
    of -699 ms. *)
Theorem expected_time_is_next_boundary env sys self :
  0 < burst_interval (audio (config self)) ->
  exists ref sys1 self1 off sys2 self2,
    on_ptp PTPTimeManager.get_ptp_time env sys self = (Some ref, sys1, self1)
    /\ on_ptp PTPTimeManager.calculate_offset env sys1 self1 = (Some off, sys2, self2)
    /\ _calculate_expected_burst_time env sys self
       = (Some (next_boundary ref (burst_interval (audio (config self))) - off),
          sys2, self2)
    /\ ref < next_boundary ref (burst_interval (audio (config self)))
    /\ next_boundary ref (burst_interval (audio (config self)))
       == last_boundary ref (burst_interval (audio (config self)))
          + burst_interval (audio (config self))
    /\ (ref == 103 # 10 /\ burst_interval (audio (config self)) == 1 /\ off == 0 ->
        next_boundary ref (burst_interval (audio (config self))) - off == 11
        /\ ((10301 # 1000)
            - (next_boundary ref (burst_interval (audio (config self))) - off))
           * 1000 == - (699)).
Proof.
  intro HP.
  assert (NZ : ~ burst_interval (audio (config self)) == 0)
    by (intro E; rewrite E in HP; discriminate).
  destruct (calculate_expected_run env sys self NZ)
    as (ref & sys1 & m1 & v2 & s2 & m2 & E & O & X & _).
  exists ref, sys1, (set_ptp_time m1 self), (v2 - clock env (tick s2)),
    (next_tick s2), (set_ptp_time m2 self).
  split; [exact E|]. split; [exact O|]. split; [exact X|].
  split; [apply (next_boundary_bounds ref _ HP)|].
  split; [apply next_boundary_after_last|].
  intros (Hr & Hp & Ho). now apply scenario_numbers.
Qed.

(** C4 (as amended).  With no reference time available and a non-zero
    period, a detection cycle still appends a record to the history and,
    when a write handle exists, hands it to the sink.  The timestamps of
    the record, its expected time and its latency are built from
    readings of the local clock alone.  The record has no synchronized
    field; the point sent to the sink carries the cached sync flag of
    the clock source as its [ptp_sync] tag. *)
Theorem absent_reference_still_emits env sys self det mag :
  reference_absent env self ->
  ~ burst_interval (audio (config self)) == 0 ->
  exists b sys' self',
    _detect_burst det mag env sys self = (tt, sys', self')
    /\ _detected_bursts self' = _detected_bursts self ++ [b]
    /\ influx sys'
       = influx sys
         ++ (if _write_api self
             then [(database (influxdb (config self)),
                    latency_point (config self) b
                      (PTPTimeManager._ptp_sync (ptp_time self')))]
             else [])
    /\ exists k0 k1 k2 k3 k4,
         BurstInfo.ptp_time b = Some (clock env k0)
         /\ BurstInfo.system_time b = clock env k1
         /\ BurstInfo.expected_time b
            = next_boundary (clock env k2) (burst_interval (audio (config self)))
              - (clock env k3 - clock env k4)
         /\ BurstInfo.latency_ms b = (det - BurstInfo.expected_time b) * 1000.
Proof.
  intros N NZ.
  destruct (detect_burst_run env sys self det mag NZ)
    as (p & s & ref & off & sys' & m' & _ & _ & E & _ & _ & I & L).
  cbv zeta in E, I.
  destruct (L N) as (k0 & k1 & k2 & k3 & k4 & -> & -> & -> & ->).
  eexists; eexists; eexists.
  split; [exact E|]. split; [reflexivity|]. split; [exact I|].
  exists k0, k1, k2, k3, k4. cbn. repeat split; reflexivity.
Qed.

(** C8 (as amended).  A detection cycle with a non-zero period appends
    exactly one record at the end of the history and removes none.  Only
    the query is bounded: for a positive [count], [get_recent_bursts]
    returns the last [count] records, or all of them when there are
    fewer. *)
Theorem history_is_append_only env sys self det mag :
  ~ burst_interval (audio (config self)) == 0 ->
  exists b,
    _detected_bursts (snd (_detect_burst det mag env sys self))
    = _detected_bursts self ++ [b]
    /\ forall count, (0 < count)%Z ->
         let recent := get_recent_bursts (snd (_detect_burst det mag env sys self)) count in
         (List.length recent
          = Nat.min (Z.to_nat count) (S (List.length (_detected_bursts self))))%nat
         /\ exists older, _detected_bursts self ++ [b] = older ++ recent.
Proof.
  intro NZ.
  destruct (detect_burst_frame env sys self det mag)
    as (sys' & self' & E & _ & _ & _ & HN & _).
  destruct (HN NZ) as (b & Hb & _).
  exists b. rewrite E. cbn [snd]. split; [exact Hb|].
  intros count Hc. cbv zeta. rewrite (get_recent_bursts_tail _ _ Hc), Hb.
  split.
  - rewrite length_skipn, length_app. cbn. lia.
  - eexists. symmetry. apply firstn_skipn.
Qed.

(** C9 (as amended).  Two detection cycles that agree on the period, the
    detection time, the queried reference time and the queried offset
    append records with equal expected time and equal latency, both
    given by [estimate] on those four inputs. *)
Theorem latency_determined_by_queries
  env1 sys1 self1 env2 sys2 self2 det1 det2 mag1 mag2 ref1 ref2 off1 off2 :
  ~ burst_interval (audio (config self1)) == 0 ->
  burst_interval (audio (config self1)) == burst_interval (audio (config self2)) ->
  det1 == det2 ->
  queried_reference env1 sys1 self1 = Some ref1 ->
  queried_reference env2 sys2 self2 = Some ref2 ->
  ref1 == ref2 ->
  queried_offset env1 sys1 self1 = Some off1 ->
  queried_offset env2 sys2 self2 = Some off2 ->
  off1 == off2 ->
  exists b1 b2,
    _detected_bursts (snd (_detect_burst det1 mag1 env1 sys1 self1))
    = _detected_bursts self1 ++ [b1]
    /\ _detected_bursts (snd (_detect_burst det2 mag2 env2 sys2 self2))
       = _detected_bursts self2 ++ [b2]
    /\ (BurstInfo.expected_time b1, BurstInfo.latency_ms b1)
       = estimate ref1 (burst_interval (audio (config self1))) det1 off1
    /\ (BurstInfo.expected_time b2, BurstInfo.latency_ms b2)
       = estimate ref2 (burst_interval (audio (config self2))) det2 off2
    /\ BurstInfo.expected_time b1 == BurstInfo.expected_time b2
    /\ BurstInfo.latency_ms b1 == BurstInfo.latency_ms b2.
Proof.
  intros NZ1 HP Hd R1 R2 Hr O1 O2 Ho.
  assert (NZ2 : ~ burst_interval (audio (config self2)) == 0)
    by (now rewrite <- HP).
  destruct (detect_burst_run env1 sys1 self1 det1 mag1 NZ1)
    as (p1 & s1 & r1 & o1 & sys1' & m1' & Q1 & F1 & E1 & _).
  destruct (detect_burst_run env2 sys2 self2 det2 mag2 NZ2)
    as (p2 & s2 & r2 & o2 & sys2' & m2' & Q2 & F2 & E2 & _).
  cbv zeta in E1, E2.
  rewrite R1 in Q1. rewrite O1 in F1. rewrite R2 in Q2. rewrite O2 in F2.
  inversion Q1; inversion F1; inversion Q2; inversion F2; subst r1 o1 r2 o2.
  rewrite E1, E2. cbn [snd].
  eexists; eexists.
  split; [reflexivity|]. split; [reflexivity|].
  split; [reflexivity|]. split; [reflexivity|].
  cbn [BurstInfo.expected_time BurstInfo.latency_ms].
  exact (estimate_compat _ _ _ _ _ _ _ _ Hr HP Hd Ho).
Qed.

(** C3 (as amended).  In a run with exactly two raw hits whose first hit
    comes more than [min_burst_gap] after the initial
    [last_accepted_time], the hits are accepted as the debounce rule
    says: one candidate burst is emitted when the second hit follows the
    first by less than [min_burst_gap], two when it follows by more. *)
Theorem debounce_two_raw_hits env sys self windows t1 a1 t2 a2 :
  raw_hits (fst (fst (feed windows env sys self))) = [(t1, a1); (t2, a2)] ->
  _min_burst_gap self < t1 - _last_burst_time self ->
  map snd (raw_hits (fst (fst (feed windows env sys self))))
  = debounce (_min_burst_gap self) (_last_burst_time self) [t1; t2]
  /\ (t2 - t1 < _min_burst_gap self ->
      List.length (candidates (fst (fst (feed windows env sys self)))) = 1%nat)
  /\ (_min_burst_gap self < t2 - t1 ->
      List.length (candidates (fst (fst (feed windows env sys self)))) = 2%nat).
Proof.
  intros H First.
  destruct (feed windows env sys self) as [[es sys'] self'] eqn:F.
  cbn [fst] in *.
  pose proof (feed_refines_debounce _ _ _ _ _ _ _ F) as R.
  unfold candidates. rewrite H in *. cbn [map fst snd] in R.
  split; [exact R|].
  cbn [debounce] in R.
  apply Py_gtb_spec in First. rewrite First in R.
  split; intro G.
  - assert (G' : Py.gtb (t2 - t1) (_min_burst_gap self) = false).
    { apply Py_gtb_false. now apply Qlt_le_weak. }
    rewrite G' in R. inversion R; subst. reflexivity.
  - apply Py_gtb_spec in G. rewrite G in R. inversion R; subst. reflexivity.
Qed.

(** On the ticking clock every loud window is accepted and adds a
    record. *)
Lemma ticking_feed n : forall sys self,
  _detection_threshold self = 1 # 10 ->
  _min_burst_gap self = 1 # 2 ->
  ~ burst_interval (audio (config self)) == 0 ->
  _last_burst_time self <= inject_Z (Z.of_nat (tick sys)) ->
  List.length (_detected_bursts (snd (feed (repeat 1 n) Scenario.ticking sys self)))
  = (List.length (_detected_bursts self) + n)%nat.
Proof.
  induction n as [|n IH]; intros sys self Ht Hg NZ Hl.
  - cbn. lia.
  - cbn [repeat]. rewrite feed_cons.
    destruct (process_audio_chunk_run Scenario.ticking sys self 1)
      as (e & sys1 & self1 & E & T & (SC & SW & ST & SG) & P).
    rewrite E.
    destruct (feed (repeat 1 n) Scenario.ticking sys1 self1) as [[es sys2] self2] eqn:F.
    cbn [snd].
    destruct e as [|t0|t0 m].
    + destruct P as (Q & _). rewrite Ht in Q. discriminate.
    + destruct P as (_ & -> & G & _). exfalso.
      apply Py_gtb_false in G. rewrite Hg in G. cbn [clock Scenario.ticking] in G. lra.
    + destruct P as (_ & -> & _ & _ & L & T' & HN).
      destruct (HN NZ) as (b & Hb & _).
      assert (IH' := IH sys1 self1).
      rewrite F in IH'. cbn [snd] in IH'. rewrite IH'.
      * rewrite Hb, length_app. cbn. lia.
      * congruence.
      * congruence.
      * now rewrite SC.
      * rewrite L. cbn [clock Scenario.ticking].
        assert (H : inject_Z (Z.of_nat (tick sys)) + 1
                    == inject_Z (Z.of_nat (S (tick sys)))).
        { rewrite Nat2Z.inj_succ. unfold Z.succ. rewrite inject_Z_plus. reflexivity. }
        rewrite H. rewrite <- Zle_Qle. lia.
Qed.

End WithRuntime.

End AudioCaptureFacts.

(** ** Concrete runs *)

Module Runs.

Import AudioCapture Scenario.

#[local] Existing Instance decimal_parse.

(** C1, counterexample.  The reference time queried is 10.3, the period
    is 1 and the clock offset is 0; the expected time is 11, not the
    elapsed boundary 10, and a detection at 10.301 gets a latency of
    -699 ms. *)
Lemma expected_time_not_last_boundary :
  let env := steady (103 # 10) in
  let self := init cfg false in
  exists e off,
    fst (fst (on_ptp PTPTimeManager.get_ptp_time env sys0 self)) = Some (103 # 10)
    /\ burst_interval (audio (config self)) = 1
    /\ queried_offset env sys0 self = Some off /\ off == 0
    /\ fst (fst (_calculate_expected_burst_time env sys0 self)) = Some e
    /\ e == 11
    /\ last_boundary (103 # 10) 1 == 10
    /\ ~ e == last_boundary (103 # 10) 1
    /\ ((10301 # 1000) - e) * 1000 == - (699).
Proof.
  cbv zeta. eexists. eexists. split; [reflexivity|]. split; [reflexivity|].
  split; [vm_compute; reflexivity|]. split; [reflexivity|].
  split; [vm_compute; reflexivity|].
  split; [reflexivity|]. split; [reflexivity|].
  split; [intro H; discriminate H|reflexivity].
Qed.

(** C1, witness: the steady clock at 10.3 with period 1. *)
Lemma expected_time_is_next_boundary_witness :
  0 < burst_interval (audio (config (init cfg false)))
  /\ exists ref off sys' self',
       _calculate_expected_burst_time (steady (103 # 10)) sys0 (init cfg false)
       = (Some (next_boundary ref 1 - off), sys', self')
       /\ ref < next_boundary ref 1.
Proof.
  assert (P : 0 < burst_interval (audio (config (init cfg false))))
    by reflexivity.
  split; [exact P|].
  destruct (AudioCaptureFacts.expected_time_is_next_boundary
              (steady (103 # 10)) sys0 (init cfg false) P)
    as (ref & sys1 & self1 & off & sys2 & self2 & _ & _ & X & B & _).
  exists ref, off, sys2, self2. split; [exact X|exact B].
Defined.

(** C2, witness: a time on the grid, [t = 10] with period 1. *)
Lemma next_boundary_strictly_future_witness :
  0 < 1
  /\ next_burst 10 1 = Some (next_boundary 10 1)
  /\ 10 < next_boundary 10 1
  /\ next_boundary 10 1 - 10 <= 1.
Proof.
  split; [reflexivity|].
  apply (next_boundary_strictly_future 10 1). reflexivity.
Defined.

(** C3, counterexample.  Two raw hits 0.2 s apart, 0.2 s and 0.4 s after
    the initial [_last_burst_time = 0]: both are discarded and no
    candidate burst is emitted.  Two raw hits 0.6 s apart, at 0.1 s and
    0.7 s: the first is discarded and one candidate is emitted. *)
Lemma debounce_discards_an_early_first_hit :
  let close := fst (fst (feed [1; 1] (two_readings (2 # 10) (4 # 10)) sys0
                              (init cfg false))) in
  let apart := fst (fst (feed [1; 1] (two_readings (1 # 10) (7 # 10)) sys0
                              (init cfg false))) in
  (raw_hits close = [(2 # 10, false); (4 # 10, false)]
   /\ (4 # 10) - (2 # 10) < _min_burst_gap (init cfg false)
   /\ List.length (candidates close) = 0%nat)
  /\ (raw_hits apart = [(1 # 10, false); (7 # 10, true)]
      /\ _min_burst_gap (init cfg false) < (7 # 10) - (1 # 10)
      /\ List.length (candidates apart) = 1%nat).
Proof.
  cbv zeta. repeat split; vm_compute; reflexivity.
Qed.

(** C3, witness: hits at 1 s and 1.2 s around a quiet window. *)
Lemma debounce_two_raw_hits_witness :
  let run := fst (fst (feed [1; 0; 1] (two_readings 1 (12 # 10)) sys0
                            (init cfg true))) in
  raw_hits run = [(1, true); (12 # 10, false)]
  /\ _min_burst_gap (init cfg true) < 1 - _last_burst_time (init cfg true)
  /\ (12 # 10) - 1 < _min_burst_gap (init cfg true)
  /\ List.length (candidates run) = 1%nat.
Proof.
  cbv zeta.
  assert (H : raw_hits (fst (fst (feed [1; 0; 1] (two_readings 1 (12 # 10)) sys0
                                       (init cfg true))))
              = [(1, true); (12 # 10, false)])
    by (vm_compute; reflexivity).
  assert (F : _min_burst_gap (init cfg true) < 1 - _last_burst_time (init cfg true))
    by reflexivity.
  split; [exact H|]. split; [exact F|]. split; [reflexivity|].
  apply (AudioCaptureFacts.debounce_two_raw_hits _ _ _ _ _ _ _ _ H F).
  reflexivity.
Defined.

(** C4, counterexample.  The daemon runs and reports class 6 while
    [phc_ctl] times out: no reference time is available, a record is
    emitted, and the point handed to the sink is tagged as
    synchronized. *)
Lemma absent_reference_tagged_synchronized :
  let self := init cfg true in
  let run := _detect_burst 1000 1 locked_without_phc sys0 self in
  reference_absent locked_without_phc self
  /\ List.length (_detected_bursts (snd run)) = 1%nat
  /\ exists p,
       influx (snd (fst run)) = [("ptpping"%string, p)]
       /\ In ("ptp_sync"%string, "True"%string) (tags p).
Proof.
  cbv zeta. split; [intro n; reflexivity|]. split; [vm_compute; reflexivity|].
  eexists. split; [vm_compute; reflexivity|].
  cbn. auto.
Qed.

(** C4, witness: the run of the counterexample still leaves a record. *)
Lemma absent_reference_still_emits_witness :
  reference_absent locked_without_phc (init cfg true)
  /\ ~ burst_interval (audio (config (init cfg true))) == 0
  /\ exists b,
       _detected_bursts (snd (_detect_burst 1000 1 locked_without_phc sys0
                                            (init cfg true)))
       = [b].
Proof.
  assert (N : reference_absent locked_without_phc (init cfg true))
    by (intro n; reflexivity).
  assert (Z : ~ burst_interval (audio (config (init cfg true))) == 0)
    by (intro H; discriminate H).
  split; [exact N|]. split; [exact Z|].
  destruct (AudioCaptureFacts.absent_reference_still_emits
              locked_without_phc sys0 (init cfg true) 1000 1 N Z)
    as (b & sys' & self' & E & H & _).
  exists b. rewrite E. exact H.
Defined.

(** C5, counterexample.  The source is synchronized and [phc_ctl] times
    out: [get_ptp_time] returns the local time 1000, not an absent
    value. *)
Lemma get_ptp_time_timeout_returns_local_time :
  let self := PTPTimeManager.init (ptp cfg) in
  let run := PTPTimeManager.get_ptp_time locked_without_phc sys0 self in
  (forall n, spawn locked_without_phc (PTPTimeManager.phc_ctl_argv self) n
             = TimeoutExpired)
  /\ PTPTimeManager._ptp_sync (snd run) = true
  /\ fst (fst run) = Some 1000
  /\ fst (fst run) <> None.
Proof.
  cbv zeta. split; [intro n; reflexivity|]. split; [vm_compute; reflexivity|].
  split; [vm_compute; reflexivity|]. vm_compute. discriminate.
Qed.

(** C8, counterexample.  No capacity bounds the history: on a clock that
    advances one second per effect, [N + 1] loud windows leave [N + 1]
    records. *)
Lemma history_unbounded :
  ~ exists N : nat, forall windows : list Q,
      (List.length
         (_detected_bursts (snd (feed windows ticking sys0 (init cfg false))))
       <= N)%nat.
Proof.
  intros [N H]. specialize (H (repeat 1 (S N))).
  rewrite AudioCaptureFacts.ticking_feed in H.
  - cbn in H. lia.
  - reflexivity.
  - reflexivity.
  - cbn. intro E. discriminate E.
  - cbn. apply Qle_refl.
Qed.

(** C8, witness: a first detection cycle on a steady clock. *)
Lemma history_is_append_only_witness :
  ~ burst_interval (audio (config (init cfg false))) == 0
  /\ exists b,
       _detected_bursts (snd (_detect_burst 5 1 (steady 5) sys0 (init cfg false)))
       = _detected_bursts (init cfg false) ++ [b].
Proof.
  assert (Z : ~ burst_interval (audio (config (init cfg false))) == 0)
    by (intro H; discriminate H).
  split; [exact Z|].
  destruct (AudioCaptureFacts.history_is_append_only
              (steady 5) sys0 (init cfg false) 5 1 Z) as (b & H & _).
  exists b. exact H.
Defined.

(** C9, counterexample.  Two detection cycles with the same reference
    time 10.3, the same period 1 and the same detection time 10.301; in
    the second the clock reads 10.4 during the offset query.  The
    expected times are 11 and 11.1, the latencies -699 ms and -799 ms. *)
Lemma latency_depends_on_offset_query :
  let self := init cfg false in
  let b1 := _detected_bursts
              (snd (_detect_burst (10301 # 1000) 1 (steady (103 # 10)) sys0 self)) in
  let b2 := _detected_bursts
              (snd (_detect_burst (10301 # 1000) 1 skewed sys0 self)) in
  queried_reference (steady (103 # 10)) sys0 self = Some (103 # 10)
  /\ queried_reference skewed sys0 self = Some (103 # 10)
  /\ map BurstInfo.ptp_time b1 = [Some (103 # 10)]
  /\ map BurstInfo.ptp_time b2 = [Some (103 # 10)]
  /\ exists e1 l1 e2 l2,
       map BurstInfo.expected_time b1 = [e1]
       /\ map BurstInfo.latency_ms b1 = [l1]
       /\ map BurstInfo.expected_time b2 = [e2]
       /\ map BurstInfo.latency_ms b2 = [l2]
       /\ e1 == 11 /\ e2 == 111 # 10 /\ ~ e1 == e2
       /\ l1 == - (699) /\ l2 == - (799) /\ ~ l1 == l2.
Proof.
  cbv zeta.
  split; [vm_compute; reflexivity|]. split; [vm_compute; reflexivity|].
  split; [vm_compute; reflexivity|]. split; [vm_compute; reflexivity|].
  do 4 eexists.
  split; [vm_compute; reflexivity|]. split; [vm_compute; reflexivity|].
  split; [vm_compute; reflexivity|]. split; [vm_compute; reflexivity|].
  split; [reflexivity|]. split; [reflexivity|].
  split; [intro H; discriminate H|].
  split; [reflexivity|]. split; [reflexivity|]. intro H; discriminate H.
Qed.

(** C9, witness: two cycles whose clocks differ only in a reading that
    feeds neither the reference time nor the offset. *)
Lemma latency_determined_by_queries_witness :
  let self := init cfg false in
  exists b1 b2,
    _detected_bursts
      (snd (_detect_burst (10301 # 1000) 1 (steady (103 # 10)) sys0 self)) = [b1]
    /\ _detected_bursts
         (snd (_detect_burst (10301 # 1000) 1 late_start sys0 self)) = [b2]
    /\ BurstInfo.expected_time b1 == BurstInfo.expected_time b2
    /\ BurstInfo.latency_ms b1 == BurstInfo.latency_ms b2.
Proof.
  cbv zeta.
  assert (Z : ~ burst_interval (audio (config (init cfg false))) == 0)
    by (intro H; discriminate H).
  destruct (AudioCaptureFacts.latency_determined_by_queries
              (steady (103 # 10)) sys0 (init cfg false)
              late_start sys0 (init cfg false)
              (10301 # 1000) (10301 # 1000) 1 1
              (103 # 10) (103 # 10)
              ((103 # 10) - (103 # 10)) ((103 # 10) - (103 # 10)))
    as (b1 & b2 & H1 & H2 & _ & _ & He & Hl).
  - exact Z.
  - reflexivity.
  - reflexivity.
  - vm_compute; reflexivity.
  - vm_compute; reflexivity.
  - reflexivity.
  - reflexivity.
  - reflexivity.
  - reflexivity.
  - exists b1, b2. split; [exact H1|]. split; [exact H2|]. split; assumption.
Defined.

End Runs.

(** * Further properties *)

(** ** The boundary grid *)

Lemma floor_of_multiple (k : Z) (P : Q) :
  ~ P == 0 -> Qfloor (inject_Z k * P / P) = k.
Proof.
  intro H. rewrite <- (Qfloor_Z k) at 2. apply Qfloor_comp. field. exact H.
Qed.

Lemma next_boundary_on_grid (t P : Q) :
  next_boundary t P == inject_Z (Qfloor (t / P) + 1) * P.
Proof. unfold next_boundary. rewrite inject_Z_plus. reflexivity. Qed.

(** X1.  Taking the next boundary of a boundary advances by exactly one
    period: successive wake-ups of the scheduler do not drift. *)
Theorem next_boundary_no_drift (t P : Q) :
  ~ P == 0 ->
  next_boundary (next_boundary t P) P == next_boundary t P + P.
Proof.
  intro H. unfold next_boundary at 1.
  assert (E : Qfloor (next_boundary t P / P) = (Qfloor (t / P) + 1)%Z).
  { rewrite <- (floor_of_multiple (Qfloor (t / P) + 1) P H).
    apply Qfloor_comp. now rewrite next_boundary_on_grid. }
  rewrite E, next_boundary_on_grid. ring.
Qed.

(** X2.  For a positive period the next boundary is the only multiple
    of the period in the interval from [t] (excluded) to [t + P]
    (included), so two schedulers reading times in the same period wake
    at the same instant. *)
Theorem next_boundary_only_grid_point (t P : Q) (k : Z) :
  0 < P ->
  t < inject_Z k * P -> inject_Z k * P <= t + P ->
  next_boundary t P == inject_Z k * P.
Proof.
  intros HP Hlo Hhi.
  assert (HP0 : ~ P == 0) by (intro E; rewrite E in HP; discriminate).
  pose proof (quotient_times t P HP0) as Hq.
  assert (L : t / P < inject_Z k).
  { apply (Qmult_lt_r _ _ P HP). now rewrite Hq. }
  assert (U : inject_Z (k - 1) <= t / P).
  { apply (Qmult_le_r _ _ P HP). rewrite Hq.
    assert (D : inject_Z (k - 1) * P == inject_Z k * P - P).
    { replace (k - 1)%Z with (k + (-1))%Z by lia. rewrite inject_Z_plus.
      change (inject_Z (-1)) with (- (1)). ring. }
    rewrite D. lra. }
  assert (E : Qfloor (t / P) = (k - 1)%Z).
  { apply Z.le_antisymm.
    - apply Z.lt_succ_r. unfold Z.succ. replace (k - 1 + 1)%Z with k by lia.
      rewrite Zlt_Qlt. apply Qle_lt_trans with (t / P); [apply Qfloor_le|exact L].
    - rewrite <- (Qfloor_Z (k - 1)). now apply Qfloor_resp_le. }
  rewrite next_boundary_on_grid, E. replace (k - 1 + 1)%Z with k by lia.
  reflexivity.
Qed.

(** X3.  For a positive period a later time never has an earlier next
    boundary. *)
Theorem next_boundary_monotone (t t' P : Q) :
  0 < P -> t <= t' -> next_boundary t P <= next_boundary t' P.
Proof.
  intros HP H. unfold next_boundary.
  apply Qmult_le_r; [exact HP|].
  apply Qplus_le_l. rewrite <- Zle_Qle. apply Qfloor_resp_le.
  apply Qmult_le_r with (z := P); [exact HP|].
  assert (HP0 : ~ P == 0) by (intro E; rewrite E in HP; discriminate).
  now rewrite !quotient_times.
Qed.

(** ** The scheduler at the edges *)

Module AudioGeneratorEdges.
Import AudioGenerator.
Import PTPTimeManagerFacts.
Section WithRuntime.
Context {runtime : PyParse}.

(** X4.  With a positive period [_wait_for_next_burst] always sleeps,
    for a positive duration of at most one period, and the time it read
    plus that duration is the next boundary. *)
Theorem wait_sleeps_to_next_boundary env sys self :
  0 < burst_interval (audio (config self)) ->
  exists now d sys' self',
    zoom ptp_time set_ptp_time PTPTimeManager.get_ptp_time env sys self
    = (Some now, sys', self')
    /\ _wait_for_next_burst env sys self = (Slept d, sys', self')
    /\ 0 < d /\ d <= burst_interval (audio (config self))
    /\ now + d == next_boundary now (burst_interval (audio (config self))).
Proof.
  intro HP.
  assert (NZ : ~ burst_interval (audio (config self)) == 0)
    by (intro E; rewrite E in HP; discriminate).
  destruct (get_ptp_time_run env sys (ptp_time self)) as (now & sys' & m' & E & _).
  destruct (next_boundary_bounds now _ HP) as [B1 B2].
  assert (W : 0 < next_boundary now (burst_interval (audio (config self))) - now)
    by lra.
  exists now, (next_boundary now (burst_interval (audio (config self))) - now),
    sys', (set_ptp_time m' self).
  split; [unfold zoom; now rewrite E|].
  split.
  { unfold _wait_for_next_burst, bind, zoom. rewrite E. unfold get.
    cbn [config set_ptp_time]. rewrite (next_burst_defined _ _ NZ).
    apply Py_gtb_spec in W. now rewrite W. }
  split; [exact W|]. split; [exact B2|]. ring.
Qed.

(** X5.  With a zero period [_wait_for_next_burst] raises
    ZeroDivisionError after reading the clock. *)
Theorem wait_zero_period_raises env sys self :
  burst_interval (audio (config self)) == 0 ->
  exists sys' self',
    _wait_for_next_burst env sys self = (Raised ZeroDivisionError, sys', self').
Proof.
  intro Z0.
  destruct (get_ptp_time_run env sys (ptp_time self)) as (now & sys' & m' & E & _).
  exists sys', (set_ptp_time m' self).
  unfold _wait_for_next_burst, bind, zoom. rewrite E. unfold get.
  cbn [config set_ptp_time]. now rewrite (next_burst_zero _ _ Z0).
Qed.

Lemma next_boundary_negative_period (t P : Q) :
  P < 0 -> next_boundary t P < t.
Proof.
  intro HP.
  assert (HP0 : ~ P == 0) by (intro E; rewrite E in HP; discriminate).
  pose proof (Qlt_floor (t / P)) as Hhi.
  rewrite inject_Z_plus in Hhi. change (inject_Z 1) with 1 in Hhi.
  unfold next_boundary. set (q := inject_Z (Qfloor (t / P))) in *.
  pose proof (quotient_times t P HP0) as Hq.
  assert (N : 0 < - P) by lra.
  assert (M : t / P * - P < (q + 1) * - P) by (apply Qmult_lt_r; assumption).
  assert (R1 : t / P * - P == - t) by (rewrite <- Hq at 2; ring).
  assert (R2 : (q + 1) * - P == - ((q + 1) * P)) by ring.
  rewrite R1, R2 in M. lra.
Qed.

(** X6.  With a negative period the computed boundary lies in the past
    and [_wait_for_next_burst] returns without sleeping. *)
Theorem wait_negative_period_never_sleeps env sys self :
  burst_interval (audio (config self)) < 0 ->
  exists sys' self',
    _wait_for_next_burst env sys self = (Immediate, sys', self').
Proof.
  intro HP.
  assert (NZ : ~ burst_interval (audio (config self)) == 0)
    by (intro E; rewrite E in HP; discriminate).
  destruct (get_ptp_time_run env sys (ptp_time self)) as (now & sys' & m' & E & _).
  exists sys', (set_ptp_time m' self).
  unfold _wait_for_next_burst, bind, zoom. rewrite E. unfold get.
  cbn [config set_ptp_time]. rewrite (next_burst_defined _ _ NZ).
  pose proof (next_boundary_negative_period now _ HP) as B.
  assert (G : Py.gtb (next_boundary now (burst_interval (audio (config self))) - now) 0
              = false) by (apply Py_gtb_false; lra).
  now rewrite G.
Qed.

End WithRuntime.
End AudioGeneratorEdges.

(** ** The clock source *)

Module PTPTimeManagerRuns.
Import PTPTimeManager.
Import PTPTimeManagerFacts.
Section WithRuntime.
Context {runtime : PyParse}.

(** X7.  The loop of [_check_ptp_sync] yields a clock class exactly when
    the first line containing [CLOCK_CLASS] ends in a token that [int]
    accepts; lines after that one are never looked at. *)
Theorem scan_clock_class_first_marker_line (lines : list string) (c : Z) :
  scan_clock_class lines = Some c
  <-> exists pre line rest tok,
        lines = pre ++ line :: rest
        /\ Forall (fun l => PyStr.contains "CLOCK_CLASS" l = false) pre
        /\ PyStr.contains "CLOCK_CLASS" line = true
        /\ PyStr.last_item (PyStr.split_ws line) = Some tok
        /\ py_int tok = Some c.
Proof.
  induction lines as [|l lines IH]; cbn [scan_clock_class].
  - split; [discriminate|]. intros (pre & line & rest & tok & H & _).
    destruct pre; discriminate.
  - destruct (PyStr.contains "CLOCK_CLASS" l) eqn:M.
    + split.
      * intro H. exists [], l, lines.
        destruct (PyStr.last_item (PyStr.split_ws l)) as [tok|]; [|discriminate].
        exists tok. repeat split; auto.
      * intros (pre & line & rest & tok & H & Hpre & Hm & Ht & Hi).
        destruct pre as [|p pre]; cbn in H; inversion H; subst.
        -- now rewrite Ht.
        -- inversion Hpre; subst. congruence.
    + rewrite IH. split.
      * intros (pre & line & rest & tok & H & Hpre & Hm & Ht & Hi).
        exists (l :: pre), line, rest, tok. subst lines.
        repeat split; auto.
      * intros (pre & line & rest & tok & H & Hpre & Hm & Ht & Hi).
        destruct pre as [|p pre]; cbn in H; inversion H; subst.
        -- congruence.
        -- inversion Hpre; subst. exists pre, line, rest, tok. repeat split; auto.
Qed.

(** X8.  The loop of [get_ptp_time] yields a time exactly when the text
    after the last [clock time is] of the first line containing it is,
    once stripped, accepted by [float]. *)
Theorem scan_clock_time_first_marker_line (lines : list string) (v : Q) :
  scan_clock_time lines = Some v
  <-> exists pre line rest s,
        lines = pre ++ line :: rest
        /\ Forall (fun l => PyStr.contains "clock time is" l = false) pre
        /\ PyStr.contains "clock time is" line = true
        /\ PyStr.last_item (PyStr.split "clock time is" line) = Some s
        /\ py_float (PyStr.strip s) = Some v.
Proof.
  induction lines as [|l lines IH]; cbn [scan_clock_time].
  - split; [discriminate|]. intros (pre & line & rest & tok & H & _).
    destruct pre; discriminate.
  - destruct (PyStr.contains "clock time is" l) eqn:M.
    + split.
      * intro H. exists [], l, lines.
        destruct (PyStr.last_item (PyStr.split "clock time is" l)) as [s|];
          [|discriminate].
        exists s. repeat split; auto.
      * intros (pre & line & rest & s & H & Hpre & Hm & Ht & Hi).
        destruct pre as [|p pre]; cbn in H; inversion H; subst.
        -- now rewrite Ht.
        -- inversion Hpre; subst. congruence.
    + rewrite IH. split.
      * intros (pre & line & rest & s & H & Hpre & Hm & Ht & Hi).
        exists (l :: pre), line, rest, s. subst lines.
        repeat split; auto.
      * intros (pre & line & rest & s & H & Hpre & Hm & Ht & Hi).
        destruct pre as [|p pre]; cbn in H; inversion H; subst.
        -- congruence.
        -- inversion Hpre; subst. exists pre, line, rest, s. repeat split; auto.
Qed.

Lemma check_ptp_sync_effects env sys self :
  exists b sys',
    _check_ptp_sync env sys self = (tt, sys', set_ptp_sync b self)
    /\ (tick sys < tick sys' <= tick sys + 2)%nat
    /\ influx sys' = influx sys.
Proof.
  unfold _check_ptp_sync, bind, subprocess_run, modify, get.
  destruct (spawn env pgrep_argv (tick sys)) as [rc out| |]; cbn;
    [|eexists; eexists; (split; [reflexivity|]); cbn; (split; [lia|reflexivity])..].
  destruct (rc =? 0)%Z; cbn;
    [|eexists; eexists; (split; [reflexivity|]); cbn; (split; [lia|reflexivity])].
  destruct (spawn env (pmc_argv self) (S (tick sys))) as [rc' out'| |]; cbn;
    [|eexists; eexists; (split; [reflexivity|]); cbn; (split; [lia|reflexivity])..].
  destruct (if (rc' =? 0)%Z then scan_clock_class out' else None); cbn;
    eexists; eexists; (split; [reflexivity|]); cbn; (split; [lia|reflexivity]).
Qed.

(** X9.  After a call of [is_synchronized] that refreshed, a second call
    whose clock reading is at most the check interval later returns the
    same flag from the cache: it only reads the clock and leaves the
    manager as it is. *)
Theorem is_synchronized_caches_refresh env sys self b sys1 self1 :
  is_synchronized env sys self = (b, sys1, self1) ->
  _sync_check_interval self < clock env (tick sys) - _last_sync_check self ->
  clock env (tick sys1) - clock env (tick sys) <= _sync_check_interval self ->
  is_synchronized env sys1 self1 = (b, next_tick sys1, self1).
Proof.
  intros E Due Near.
  unfold is_synchronized, refresh_if_due, bind, time_time, get in E.
  apply Py_gtb_spec in Due. rewrite Due in E.
  destruct (check_ptp_sync_effects env (next_tick sys) self) as (f & s' & C & _).
  rewrite C in E. unfold modify in E. cbn in E.
  inversion E; subst b sys1 self1. clear E.
  unfold is_synchronized, refresh_if_due, bind, time_time, get.
  cbn [_last_sync_check _sync_check_interval set_last_sync_check set_ptp_sync].
  apply Py_gtb_false in Near. rewrite Near. reflexivity.
Qed.

(** X10.  One call of [get_ptp_time] performs between two and five
    effects (clock readings and subprocesses) and writes nothing to the
    sink. *)
Theorem get_ptp_time_effects env sys self :
  (tick sys + 2 <= tick (snd (fst (get_ptp_time env sys self))) <= tick sys + 5)%nat
  /\ influx (snd (fst (get_ptp_time env sys self))) = influx sys.
Proof.
  unfold get_ptp_time, refresh_if_due, bind, time_time, get.
  destruct (Py.gtb _ _).
  - destruct (check_ptp_sync_effects env (next_tick sys) self)
      as (f & s' & C & T & I).
    rewrite C. unfold modify. cbn in T.
    cbn [_ptp_sync set_last_sync_check set_ptp_sync].
    destruct f; cbn [negb].
    + unfold subprocess_run. destruct (phc_reading _); cbn; split; try lia; exact I.
    + cbn. split; [lia|exact I].
  - unfold ret. destruct (_ptp_sync self); cbn [negb].
    + unfold subprocess_run. destruct (phc_reading _); cbn; split; try lia; reflexivity.
    + cbn. split; [lia|reflexivity].
Qed.

(** X11.  Without a reference [calculate_offset] still returns a value:
    the difference of the last two readings of the local clock it made,
    the earlier minus the later, hence never positive on a clock that
    does not go back. *)
Theorem calculate_offset_without_reference env sys self :
  no_reference env self ->
  exists k sys' self',
    calculate_offset env sys self
    = (Some (clock env k - clock env (S k)), sys', self')
    /\ tick sys' = S (S k)
    /\ (monotone_clock env -> clock env k - clock env (S k) <= 0).
Proof.
  intro N.
  destruct (get_ptp_time_run env sys self)
    as (v & sys1 & self' & E & _ & T & _ & _ & L).
  exists (Nat.pred (tick sys1)), (next_tick sys1), self'.
  assert (S1 : S (Nat.pred (tick sys1)) = tick sys1) by lia.
  split.
  - unfold calculate_offset, get_timestamp, bind. rewrite E.
    unfold time_time, ret. cbn [fst snd]. rewrite (L (or_introl N)), S1.
    reflexivity.
  - split; [cbn; lia|].
    intro Mono. specialize (Mono (Nat.pred (tick sys1)) (S (Nat.pred (tick sys1)))).
    assert (H : (Nat.pred (tick sys1) <= S (Nat.pred (tick sys1)))%nat) by lia.
    specialize (Mono H). lra.
Qed.

End WithRuntime.
End PTPTimeManagerRuns.

(** ** Runs of the detector *)

Module AudioCaptureRuns.
Import AudioCapture.
Import PTPTimeManagerFacts AudioCaptureFacts.
Section WithRuntime.
Context {runtime : PyParse}.

(** A detection cycle with a zero period: the division error is caught,
    nothing is recorded and nothing is written. *)
Lemma detect_burst_zero_run env sys self det mag :
  burst_interval (audio (config self)) == 0 ->
  exists sys' m',
    _detect_burst det mag env sys self = (tt, sys', set_ptp_time m' self)
    /\ clock_only sys sys'
    /\ PTPTimeManager.config m' = PTPTimeManager.config (ptp_time self).
Proof.
  intro Z0.
  destruct (capture_get_timestamp env sys self) as (p & sys0 & m0 & T0 & A0).
  set (self0 := set_ptp_time m0 self) in *.
  assert (Z1 : burst_interval (audio (config self0)) == 0) by exact Z0.
  destruct (capture_get_ptp_time env (next_tick sys0) self0)
    as (v & sys1 & m1 & E & A1).
  exists sys1, m1. split.
  { unfold _detect_burst, bind. rewrite T0. fold self0.
    unfold _calculate_expected_burst_time, bind. rewrite E. unfold get.
    cbn [config set_ptp_time]. rewrite (next_burst_zero _ _ Z1). reflexivity. }
  destruct A0 as ([F0 G0] & _ & C0 & _), A1 as ([F1 G1] & _ & C1 & _).
  cbn in *. split; [split; [lia|congruence]|congruence].
Qed.

(** With no reference and a clock that never goes back, the expected
    time of a cycle lies after every reading taken before the cycle. *)
Lemma detect_burst_local_latency env sys self det mag :
  0 < burst_interval (audio (config self)) ->
  reference_absent env self ->
  monotone_clock env ->
  det <= clock env (tick sys) ->
  exists b,
    _detected_bursts (snd (_detect_burst det mag env sys self))
    = _detected_bursts self ++ [b]
    /\ BurstInfo.latency_ms b < 0.
Proof.
  intros HP N Mono Hdet.
  assert (NZ : ~ burst_interval (audio (config self)) == 0)
    by (intro E; rewrite E in HP; discriminate).
  destruct (capture_get_timestamp env sys self) as (p & sys0 & m0 & T0 & A0).
  set (self0 := set_ptp_time m0 self) in *.
  assert (NZ0 : ~ burst_interval (audio (config self0)) == 0) by exact NZ.
  destruct (calculate_expected_run env (next_tick sys0) self0 NZ0)
    as (ref & sys1 & m1 & v2 & s2 & m2 & E1 & O1 & X1 & A1 & A2).
  set (e := next_boundary ref (burst_interval (audio (config self)))
            - (v2 - clock env (tick s2))).
  set (b := {| BurstInfo.ptp_time := Some p;
               BurstInfo.system_time := clock env (tick sys0);
               BurstInfo.detection_time := det;
               BurstInfo.expected_time := e;
               BurstInfo.latency_ms := (det - e) * 1000;
               BurstInfo.magnitude := mag |}).
  destruct (send_to_influxdb_run env (next_tick s2)
              (append_burst b (set_ptp_time m2 self0)) b)
    as (sys' & m' & S & _).
  assert (Run : _detect_burst det mag env sys self
                = (tt, sys', append_burst b (set_ptp_time m' self))).
  { unfold _detect_burst, bind. rewrite T0. fold self0. rewrite X1.
    unfold modify. cbn [fst snd].
    etransitivity; [exact S|]. reflexivity. }
  exists b. split; [rewrite Run; reflexivity|].
  destruct A0 as ([F0 _] & L0 & C0 & R0), A1 as ([F1 _] & L1 & C1 & R1),
    A2 as ([F2 _] & L2 & C2 & R2).
  cbn in F1, L1, C1, C2.
  assert (N0 : reference_absent env self0)
    by (apply reference_absent_step; assumption).
  assert (N1 : reference_absent env (set_ptp_time m1 self0))
    by (apply reference_absent_step; assumption).
  pose proof (R1 N0) as Href. pose proof (R2 N1) as Hv2.
  assert (B : ref < next_boundary ref (burst_interval (audio (config self))))
    by (apply next_boundary_bounds; exact HP).
  assert (Hr : det <= ref).
  { rewrite Href. apply Qle_trans with (clock env (tick sys)); [exact Hdet|].
    apply Mono. lia. }
  assert (Ho : v2 <= clock env (tick s2)).
  { rewrite Hv2. apply Mono. lia. }
  unfold b, e. cbn [BurstInfo.latency_ms].
  set (nb := next_boundary ref (burst_interval (audio (config self)))) in *.
  lra.
Qed.


Lemma candidates_cons e es :
  candidates (e :: es)
  = match e with
    | Accepted t0 _ => (t0, true) :: candidates es
    | _ => candidates es
    end.
Proof. destruct e; reflexivity. Qed.

(** One window with a non-zero period: what it adds to the history and
    to the sink. *)
Lemma chunk_step env sys self w :
  ~ burst_interval (audio (config self)) == 0 ->
  exists e sys' self' bs pts,
    _process_audio_chunk w env sys self = (e, sys', self')
    /\ same_detector self self'
    /\ PTPTimeManager.config (ptp_time self') = PTPTimeManager.config (ptp_time self)
    /\ (tick sys <= tick sys')%nat
    /\ _detected_bursts self' = _detected_bursts self ++ bs
    /\ influx sys' = influx sys ++ pts
    /\ match e with
       | Accepted t0 m =>
           t0 = clock env (tick sys)
           /\ exists b,
                bs = [b] /\ BurstInfo.detection_time b = t0
                /\ BurstInfo.magnitude b = w
                /\ List.length pts = (if _write_api self then 1 else 0)%nat
                /\ (0 < burst_interval (audio (config self)) ->
                    reference_absent env self -> monotone_clock env ->
                    BurstInfo.latency_ms b < 0)
       | _ => bs = [] /\ pts = []
       end.
Proof.
  intro NZ. unfold _process_audio_chunk, bind, get.
  destruct (Py.gtb w (_detection_threshold self)) eqn:H.
  2:{ exists Quiet, sys, self, [], []. unfold ret.
      split; [reflexivity|]. split; [apply same_detector_refl|].
      split; [reflexivity|]. split; [lia|]. rewrite !app_nil_r. auto. }
  unfold time_time.
  destruct (Py.gtb (clock env (tick sys) - _last_burst_time self)
              (_min_burst_gap self)) eqn:G.
  2:{ exists (Discarded (clock env (tick sys))), (next_tick sys), self, [], [].
      unfold ret. split; [reflexivity|]. split; [apply same_detector_refl|].
      split; [reflexivity|]. split; [cbn; lia|]. rewrite !app_nil_r. auto. }
  destruct (detect_burst_run env (next_tick sys) self (clock env (tick sys)) w NZ)
    as (p & s & ref & off & sys' & m' & _ & _ & E & T & C & I & _).
  cbv zeta in E, I. rewrite E. unfold modify, ret.
  eexists; eexists; eexists; eexists; eexists.
  split; [reflexivity|]. split; [repeat split|]. split; [exact C|].
  cbn in T. split; [lia|]. split; [reflexivity|]. split; [exact I|].
  split; [reflexivity|]. eexists. split; [reflexivity|].
  split; [reflexivity|]. split; [reflexivity|].
  split; [destruct (_write_api self); reflexivity|].
  intros HP N Mono.
  destruct (detect_burst_local_latency env (next_tick sys) self
              (clock env (tick sys)) w HP N Mono) as (b & Hb & Hl).
  { apply Mono. cbn. lia. }
  rewrite E in Hb. cbn [snd append_burst _detected_bursts] in Hb.
  apply app_inj_tail in Hb. destruct Hb as [_ Hb]. rewrite Hb. exact Hl.
Qed.

(** A whole run with a non-zero period. *)
Lemma feed_run ws : forall env sys self,
  ~ burst_interval (audio (config self)) == 0 ->
  exists es sys' self' bs pts,
    feed ws env sys self = (es, sys', self')
    /\ same_detector self self'
    /\ PTPTimeManager.config (ptp_time self') = PTPTimeManager.config (ptp_time self)
    /\ _detected_bursts self' = _detected_bursts self ++ bs
    /\ map BurstInfo.detection_time bs = map fst (candidates es)
    /\ influx sys' = influx sys ++ pts
    /\ List.length pts
       = (if _write_api self then List.length (candidates es) else 0)%nat
    /\ (0 < burst_interval (audio (config self)) ->
        reference_absent env self -> monotone_clock env ->
        Forall (fun b => BurstInfo.latency_ms b < 0) bs).
Proof.
  induction ws as [|w ws IH]; intros env sys self NZ.
  - exists [], sys, self, [], []. cbn. unfold ret.
    split; [reflexivity|]. split; [apply same_detector_refl|].
    split; [reflexivity|]. rewrite !app_nil_r.
    split; [reflexivity|]. split; [reflexivity|]. split; [reflexivity|].
    split; [destruct (_write_api self); reflexivity|]. intros; constructor.
  - destruct (chunk_step env sys self w NZ)
      as (e & sys1 & self1 & bs1 & pts1 & E & SD & C & T & Hh & Hi & He).
    assert (NZ1 : ~ burst_interval (audio (config self1)) == 0).
    { destruct SD as (SC & _). now rewrite SC. }
    destruct (IH env sys1 self1 NZ1)
      as (es & sys2 & self2 & bs2 & pts2 & F & SD2 & C2 & Hh2 & Hd2 & Hi2 & Hl2 & Hn2).
    exists (e :: es), sys2, self2, (bs1 ++ bs2), (pts1 ++ pts2).
    split; [rewrite feed_cons, E, F; reflexivity|].
    split; [exact (same_detector_trans _ _ _ SD SD2)|].
    split; [congruence|].
    split; [rewrite Hh2, Hh, app_assoc; reflexivity|].
    destruct SD as (SC & SW & ST & SG).
    rewrite candidates_cons.
    destruct e as [|t0|t0 m].
    + destruct He as [-> ->]. cbn [app].
      split; [exact Hd2|]. split; [rewrite Hi2, Hi, app_nil_r; reflexivity|].
      split; [rewrite Hl2, SW; reflexivity|].
      intros HP N Mono. apply Hn2.
      * now rewrite SC.
      * unfold reference_absent in *. intro n.
        rewrite (phc_ctl_argv_config _ _ C). apply N.
      * exact Mono.
    + destruct He as [-> ->]. cbn [app].
      split; [exact Hd2|]. split; [rewrite Hi2, Hi, app_nil_r; reflexivity|].
      split; [rewrite Hl2, SW; reflexivity|].
      intros HP N Mono. apply Hn2.
      * now rewrite SC.
      * unfold reference_absent in *. intro n.
        rewrite (phc_ctl_argv_config _ _ C). apply N.
      * exact Mono.
    + destruct He as (_ & b & -> & Hdt & _ & Hp & Hneg).
      split; [cbn; now rewrite Hdt, Hd2|].
      split; [rewrite Hi2, Hi, app_assoc; reflexivity|].
      split.
      { rewrite length_app, Hp, Hl2, SW.
        destruct (_write_api self); reflexivity. }
      intros HP N Mono. cbn [app]. constructor.
      * now apply Hneg.
      * apply Hn2.
        -- now rewrite SC.
        -- unfold reference_absent in *. intro n.
           rewrite (phc_ctl_argv_config _ _ C). apply N.
        -- exact Mono.
Qed.

(** The same with a zero period: the debounce runs, nothing is kept. *)
Lemma feed_zero_run ws : forall env sys self,
  burst_interval (audio (config self)) == 0 ->
  exists es sys' self',
    feed ws env sys self = (es, sys', self')
    /\ same_detector self self'
    /\ _detected_bursts self' = _detected_bursts self
    /\ influx sys' = influx sys.
Proof.
  induction ws as [|w ws IH]; intros env sys self Z0.
  - exists [], sys, self. cbn. unfold ret.
    split; [reflexivity|]. split; [apply same_detector_refl|]. auto.
  - assert (S1 : exists e sys1 self1,
               _process_audio_chunk w env sys self = (e, sys1, self1)
               /\ same_detector self self1
               /\ _detected_bursts self1 = _detected_bursts self
               /\ influx sys1 = influx sys).
    { unfold _process_audio_chunk, bind, get.
      destruct (Py.gtb w (_detection_threshold self)).
      2:{ exists Quiet, sys, self. unfold ret.
          split; [reflexivity|]. split; [apply same_detector_refl|]. auto. }
      unfold time_time.
      destruct (Py.gtb _ _).
      2:{ exists (Discarded (clock env (tick sys))), (next_tick sys), self.
          unfold ret. split; [reflexivity|].
          split; [apply same_detector_refl|]. auto. }
      destruct (detect_burst_zero_run env (next_tick sys) self
                  (clock env (tick sys)) w Z0) as (sys' & m' & E & [_ I] & _).
      rewrite E. unfold modify, ret.
      eexists; eexists; eexists. split; [reflexivity|].
      split; [repeat split|]. split; [reflexivity|exact I]. }
    destruct S1 as (e & sys1 & self1 & E & SD & Hh & Hi).
    assert (Z1 : burst_interval (audio (config self1)) == 0).
    { destruct SD as (SC & _). now rewrite SC. }
    destruct (IH env sys1 self1 Z1) as (es & sys2 & self2 & F & SD2 & Hh2 & Hi2).
    exists (e :: es), sys2, self2.
    split; [rewrite feed_cons, E, F; reflexivity|].
    split; [exact (same_detector_trans _ _ _ SD SD2)|].
    split; congruence.
Qed.

Lemma last_cons_default {A : Type} (l : list A) : forall (x d d' : A),
  last (x :: l) d = last (x :: l) d'.
Proof.
  induction l as [|y l IH]; intros x d d'; [reflexivity|].
  change (last (y :: l) d = last (y :: l) d'). apply IH.
Qed.

(** The debounce state after a run. *)
Lemma feed_last_burst_time ws : forall env sys self es sys' self',
  feed ws env sys self = (es, sys', self') ->
  _last_burst_time self'
  = last (map fst (candidates es)) (_last_burst_time self).
Proof.
  induction ws as [|w ws IH]; intros env sys self es sys' self' F.
  - inversion F; subst. reflexivity.
  - rewrite feed_cons in F.
    destruct (process_audio_chunk_run env sys self w)
      as (e & sys1 & self1 & E & _ & _ & P).
    rewrite E in F.
    destruct (feed ws env sys1 self1) as [[es1 sys2] self2] eqn:F1.
    inversion F; subst es sys' self'. clear F.
    rewrite (IH _ _ _ _ _ _ F1), candidates_cons.
    destruct e as [|t0|t0 m].
    + destruct P as (_ & L & _). now rewrite L.
    + destruct P as (_ & _ & _ & L & _). now rewrite L.
    + destruct P as (_ & _ & _ & _ & L & _). rewrite L. cbn [map fst].
      destruct (map fst (candidates es1)) as [|q l]; [reflexivity|].
      change (last (q :: l) t0 = last (q :: l) (_last_burst_time self)).
      apply last_cons_default.
Qed.

Lemma debounce_spaced gap : forall hits last0,
  map snd hits = debounce gap last0 (map fst hits) ->
  spaced gap last0 (map fst (filter snd hits)).
Proof.
  induction hits as [|[t0 a] hits IH]; intros last0 H; [exact I|].
  cbn [map fst snd debounce] in H. cbn [filter snd].
  destruct (Py.gtb (t0 - last0) gap) eqn:G; inversion H; subst a.
  - cbn [map fst spaced]. split; [now apply Py_gtb_spec|]. now apply IH.
  - now apply IH.
Qed.

Lemma quiet_chunk env sys self w :
  w <= _detection_threshold self ->
  _process_audio_chunk w env sys self = (Quiet, sys, self).
Proof.
  intro H. unfold _process_audio_chunk, bind, get.
  apply Py_gtb_false in H. now rewrite H.
Qed.


(** X12.  In every run each accepted hit comes more than
    [min_burst_gap] after the accepted hit before it, and the first more
    than [min_burst_gap] after the initial [_last_burst_time]. *)
Theorem accepted_hits_are_spaced env sys self windows :
  spaced (_min_burst_gap self) (_last_burst_time self)
    (map fst (candidates (fst (fst (feed windows env sys self))))).
Proof.
  destruct (feed windows env sys self) as [[es sys'] self'] eqn:F. cbn [fst].
  unfold candidates. apply debounce_spaced.
  exact (feed_refines_debounce _ _ _ _ _ _ _ F).
Qed.

(** X13.  After a run [_last_burst_time] is the detection time of the
    last accepted hit, or unchanged when no hit was accepted. *)
Theorem last_burst_time_is_last_candidate env sys self windows :
  _last_burst_time (snd (feed windows env sys self))
  = last (map fst (candidates (fst (fst (feed windows env sys self)))))
         (_last_burst_time self).
Proof.
  destruct (feed windows env sys self) as [[es sys'] self'] eqn:F. cbn [fst snd].
  exact (feed_last_burst_time _ _ _ _ _ _ _ F).
Qed.

(** X14.  Windows whose magnitude does not exceed the threshold do
    nothing at all: no clock reading, no record, no write, no change of
    the detector. *)
Theorem quiet_windows_are_inert env sys self windows :
  Forall (fun w => w <= _detection_threshold self) windows ->
  feed windows env sys self = (map (fun _ => Quiet) windows, sys, self).
Proof.
  induction 1 as [|w ws Hw _ IH]; [reflexivity|].
  rewrite feed_cons, (quiet_chunk _ _ _ _ Hw), IH. reflexivity.
Qed.

(** X15.  With a non-zero period a run appends one record per accepted
    hit, in order, each with the detection time of its hit; records
    already in the history stay in front. *)
Theorem history_records_each_candidate env sys self windows :
  ~ burst_interval (audio (config self)) == 0 ->
  exists bs,
    _detected_bursts (snd (feed windows env sys self))
    = _detected_bursts self ++ bs
    /\ map BurstInfo.detection_time bs
       = map fst (candidates (fst (fst (feed windows env sys self)))).
Proof.
  intro NZ.
  destruct (feed_run windows env sys self NZ)
    as (es & sys' & self' & bs & pts & F & _ & _ & Hh & Hd & _).
  rewrite F. cbn [fst snd]. now exists bs.
Qed.

(** X16.  With a non-zero period a run hands the sink one point per
    accepted hit when a write handle exists and none otherwise; earlier
    writes are untouched. *)
Theorem sink_gets_one_point_per_candidate env sys self windows :
  ~ burst_interval (audio (config self)) == 0 ->
  exists pts,
    influx (snd (fst (feed windows env sys self))) = influx sys ++ pts
    /\ List.length pts
       = (if _write_api self
          then List.length (candidates (fst (fst (feed windows env sys self))))
          else 0)%nat.
Proof.
  intro NZ.
  destruct (feed_run windows env sys self NZ)
    as (es & sys' & self' & bs & pts & F & _ & _ & _ & _ & Hi & Hl & _).
  rewrite F. cbn [fst snd]. now exists pts.
Qed.

(** X17.  With a positive period, no reference time and a local clock
    that does not go back, every record a run appends has a negative
    latency: the expected time is a boundary after the detection. *)
Theorem local_latency_is_negative env sys self windows :
  0 < burst_interval (audio (config self)) ->
  reference_absent env self ->
  monotone_clock env ->
  exists bs,
    _detected_bursts (snd (feed windows env sys self))
    = _detected_bursts self ++ bs
    /\ Forall (fun b => BurstInfo.latency_ms b < 0) bs.
Proof.
  intros HP N Mono.
  assert (NZ : ~ burst_interval (audio (config self)) == 0)
    by (intro E; rewrite E in HP; discriminate).
  destruct (feed_run windows env sys self NZ)
    as (es & sys' & self' & bs & pts & F & _ & _ & Hh & _ & _ & _ & Hn).
  rewrite F. cbn [snd]. exists bs. split; [exact Hh|now apply Hn].
Qed.

(** X18.  With a zero period a run records nothing and writes nothing,
    whatever hits it accepts: the division error is caught and the
    candidate dropped. *)
Theorem zero_period_drops_every_candidate env sys self windows :
  burst_interval (audio (config self)) == 0 ->
  _detected_bursts (snd (feed windows env sys self)) = _detected_bursts self
  /\ influx (snd (fst (feed windows env sys self))) = influx sys.
Proof.
  intro Z0.
  destruct (feed_zero_run windows env sys self Z0)
    as (es & sys' & self' & F & _ & Hh & Hi).
  rewrite F. cbn [fst snd]. now split.
Qed.

(** X19.  For a count of zero or less [get_recent_bursts] does not
    return an empty list: [0] returns the whole history and [-k] the
    history without its [k] oldest records. *)
Theorem get_recent_bursts_nonpositive_count (self : t) (count : Z) :
  (count <= 0)%Z ->
  get_recent_bursts self count
  = skipn (Z.to_nat (- count)) (_detected_bursts self).
Proof.
  intro H. unfold get_recent_bursts.
  destruct (_detected_bursts self) as [|b bs] eqn:E.
  - now rewrite skipn_nil.
  - rewrite <- E. unfold py_slice_from.
    destruct (- count <? 0)%Z eqn:L; [apply Z.ltb_lt in L; lia|].
    destruct (Z.le_gt_cases (- count) (Z.of_nat (List.length (_detected_bursts self))))
      as [Le|Gt].
    + now rewrite Z.min_l.
    + rewrite Z.min_r by lia. rewrite Nat2Z.id.
      rewrite skipn_all. symmetry. apply skipn_all2. lia.
Qed.

End WithRuntime.
End AudioCaptureRuns.

(** ** Loading the configuration *)

Module ConfigFileFacts.
Import ConfigFile.
Section WithText.
Variable type_error_text : Value -> string.

Lemma item_got config_data section key v :
  item config_data section key = Got v
  <-> exists entries,
        lookup section config_data = Some (Table entries)
        /\ lookup key entries = Some v.
Proof.
  unfold item. split.
  - destruct (lookup section config_data) as [[| | | |entries|]|]; try discriminate.
    destruct (lookup key entries) as [w|] eqn:K; [|discriminate].
    intro H. inversion H; subst. exists entries. split; [reflexivity|exact K].
  - intros (entries & -> & ->). reflexivity.
Qed.

Lemma read_succeeds config_data : forall paths,
  (exists cfg, read type_error_text config_data paths = inr cfg)
  <-> forall p, In p paths -> exists v, item config_data (fst p) (snd p) = Got v.
Proof.
  induction paths as [|[s k] paths IH]; cbn [read].
  - split; [intros _ p []|eauto].
  - split.
    + intros [cfg H] p [<-|Hin].
      * cbn. destruct (item config_data s k); try discriminate. eauto.
      * apply IH; [|exact Hin].
        destruct (item config_data s k); try discriminate.
        destruct (read type_error_text config_data paths); [discriminate|eauto].
    + intro H. destruct (H (s, k) (or_introl eq_refl)) as [v Hv]. cbn in Hv.
      rewrite Hv.
      destruct (proj2 IH (fun p Hp => H p (or_intror Hp))) as [cfg Hc].
      rewrite Hc. eauto.
Qed.

(** X20.  [Config.from_file] succeeds on a parsed document exactly when
    each of its accesses finds a table holding its key; the kinds and
    ranges of the values play no part. *)
Theorem from_file_loads_iff_complete config_data :
  (exists cfg, from_file type_error_text (Parsed config_data) = inr cfg)
  <-> complete config_data.
Proof.
  cbn [from_file]. rewrite read_succeeds. unfold complete. split.
  - intros H s k Hin. destruct (H (s, k) Hin) as [v Hv]. cbn in Hv.
    apply item_got in Hv. destruct Hv as (entries & H1 & H2). eauto.
  - intros H [s k] Hin. destruct (H s k Hin) as (entries & v & H1 & H2).
    exists v. apply item_got. eauto.
Qed.

Lemma read_copies config_data : forall paths cfg,
  read type_error_text config_data paths = inr cfg ->
  map fst cfg = paths
  /\ forall s k v, In (s, k, v) cfg -> item config_data s k = Got v.
Proof.
  induction paths as [|[s k] paths IH]; intros cfg H; cbn [read] in H.
  - inversion H; subst. split; [reflexivity|intros ? ? ? []].
  - destruct (item config_data s k) as [v| |] eqn:E; try discriminate.
    destruct (read type_error_text config_data paths) as [e|vs] eqn:R;
      [discriminate|].
    inversion H; subst cfg. destruct (IH vs eq_refl) as [Hm Hi].
    split; [cbn; now rewrite Hm|].
    intros s' k' v' [Heq|Hin]; [inversion Heq; subst; exact E|eauto].
Qed.

(** X21.  A loaded configuration has exactly the attributes the source
    names, in that order, each holding the value of the document; other
    entries of the document are not kept. *)
Theorem from_file_copies_the_file config_data cfg :
  from_file type_error_text (Parsed config_data) = inr cfg ->
  map fst cfg = fields
  /\ forall section key v,
       In (section, key, v) cfg -> item config_data section key = Got v.
Proof. apply read_copies. Qed.

Lemma read_first_failure config_data : forall pre s k post,
  (forall p, In p pre -> exists v, item config_data (fst p) (snd p) = Got v) ->
  read type_error_text config_data (pre ++ (s, k) :: post)
  = match item config_data s k with
    | Got v => read type_error_text config_data (pre ++ (s, k) :: post)
    | KeyError key =>
        inl (ValueError ("Missing required configuration key: "
                         ++ key_error_text key))
    | TypeError v =>
        inl (ValueError ("Failed to load configuration: " ++ type_error_text v))
    end.
Proof.
  induction pre as [|[s0 k0] pre IH]; intros s k post H.
  - cbn [app read]. destruct (item config_data s k); reflexivity.
  - destruct (item config_data s k) as [v| |] eqn:E; [reflexivity| |].
    + cbn [app read].
      destruct (H (s0, k0) (or_introl eq_refl)) as [v0 Hv0]. cbn in Hv0.
      rewrite Hv0, (IH s k post (fun p Hp => H p (or_intror Hp))), E.
      reflexivity.
    + cbn [app read].
      destruct (H (s0, k0) (or_introl eq_refl)) as [v0 Hv0]. cbn in Hv0.
      rewrite Hv0, (IH s k post (fun p Hp => H p (or_intror Hp))), E.
      reflexivity.
Qed.

(** X22.  When the first access that fails in source order fails with
    a missing key, [Config.from_file] raises ValueError with the text
    [Missing required configuration key: 'k'], where [k] is the missing
    section or the missing key. *)
Theorem from_file_names_the_first_missing_key config_data pre section key post missing :
  fields = pre ++ (section, key) :: post ->
  (forall p, In p pre -> exists v, item config_data (fst p) (snd p) = Got v) ->
  item config_data section key = KeyError missing ->
  from_file type_error_text (Parsed config_data)
  = inl (ValueError ("Missing required configuration key: '" ++ missing ++ "'"))
  /\ (missing = section \/ missing = key).
Proof.
  intros F H E. cbn [from_file]. rewrite F, (read_first_failure _ _ _ _ _ H), E.
  split; [reflexivity|].
  unfold item in E. destruct (lookup section config_data) as [[| | | |entries|]|];
    try discriminate.
  - destruct (lookup key entries); [discriminate|]. inversion E. now right.
  - inversion E. now left.
Qed.

End WithText.
End ConfigFileFacts.

(** ** Choosing the input device *)

Module AudioDevicesFacts.
Import AudioDevices.
Section WithText.
Context {text : PyText}.

Lemma scan_devices_first_match host self : forall remaining i j name,
  (forall d, (i <= d < j)%nat ->
     exists other, get_device_info_by_index host d = Some other
                   /\ is_loopback self other = false) ->
  (i <= j < i + remaining)%nat ->
  get_device_info_by_index host j = Some name ->
  is_loopback self name = true ->
  scan_devices host self remaining i = Found j.
Proof.
  induction remaining as [|r IH]; intros i j name Hpre Hj Hn Hm; [lia|].
  cbn [scan_devices].
  destruct (Nat.eq_dec i j) as [->|Hne].
  - now rewrite Hn, Hm.
  - destruct (Hpre i) as (other & Ho & Hf); [lia|].
    rewrite Ho, Hf. apply (IH (S i) j name); auto; try lia.
    intros d Hd. apply Hpre. lia.
Qed.

Lemma scan_devices_no_match host self : forall remaining i,
  (forall d, (i <= d < i + remaining)%nat ->
     exists other, get_device_info_by_index host d = Some other
                   /\ is_loopback self other = false) ->
  scan_devices host self remaining i = Exhausted.
Proof.
  induction remaining as [|r IH]; intros i H; [reflexivity|].
  cbn [scan_devices].
  destruct (H i) as (other & Ho & Hf); [lia|].
  rewrite Ho, Hf. apply IH. intros d Hd. apply H. lia.
Qed.

(** X23.  [_find_loopback_device] returns the index of the first device
    whose name contains the configured loopback name or, in lower case,
    [loopback], when the devices before it can be read and do not
    match. *)
Theorem find_loopback_device_first_match host self count j name :
  get_device_count host = Some count ->
  (j < count)%nat ->
  (forall d, (d < j)%nat ->
     exists other, get_device_info_by_index host d = Some other
                   /\ is_loopback self other = false) ->
  get_device_info_by_index host j = Some name ->
  is_loopback self name = true ->
  _find_loopback_device host self = j.
Proof.
  intros Hc Hj Hpre Hn Hm. unfold _find_loopback_device. rewrite Hc.
  rewrite (scan_devices_first_match host self count 0 j name); auto; try lia.
  intros d Hd. apply Hpre. lia.
Qed.

(** X24.  When every device can be read and none matches,
    [_find_loopback_device] returns the index of the default input
    device, or 0 when asking for it raises. *)
Theorem find_loopback_device_falls_back_to_default host self count :
  get_device_count host = Some count ->
  (forall d, (d < count)%nat ->
     exists other, get_device_info_by_index host d = Some other
                   /\ is_loopback self other = false) ->
  _find_loopback_device host self
  = match get_default_input_device_info host with
    | Some index => index
    | None => 0%nat
    end.
Proof.
  intros Hc H. unfold _find_loopback_device. rewrite Hc.
  rewrite (scan_devices_no_match host self count 0); [reflexivity|].
  intros d Hd. apply H. lia.
Qed.

Lemma contains_empty (s : string) : PyStr.contains "" s = true.
Proof. destruct s; reflexivity. Qed.

(** X25.  With an empty [loopback_device] setting the loop stops at the
    first device, whatever its name: the empty string is contained in
    every name. *)
Theorem empty_loopback_name_selects_first_device host self remaining name :
  loopback_device (audio (AudioCapture.config self)) = ""%string ->
  get_device_info_by_index host 0 = Some name ->
  scan_devices host self (S remaining) 0 = Found 0.
Proof.
  intros H Hn. cbn [scan_devices]. rewrite Hn.
  unfold is_loopback. now rewrite H, contains_empty.
Qed.

End WithText.
End AudioDevicesFacts.

(** ** Further concrete runs *)

Module MoreRuns.

Import Scenario Examples.

#[local] Existing Instance decimal_parse.
#[local] Existing Instance ascii_text.

Lemma next_boundary_no_drift_witness :
  ~ 1 == 0
  /\ next_boundary (next_boundary (103 # 10) 1) 1 == next_boundary (103 # 10) 1 + 1.
Proof.
  assert (H : ~ 1 == 0) by (intro E; discriminate E).
  split; [exact H|]. apply (next_boundary_no_drift (103 # 10) 1 H).
Defined.

Lemma next_boundary_only_grid_point_witness :
  0 < 1 /\ 103 # 10 < inject_Z 11 * 1 /\ inject_Z 11 * 1 <= (103 # 10) + 1
  /\ next_boundary (103 # 10) 1 == inject_Z 11 * 1.
Proof.
  assert (H1 : 0 < 1) by reflexivity.
  assert (H2 : 103 # 10 < inject_Z 11 * 1) by reflexivity.
  assert (H3 : inject_Z 11 * 1 <= (103 # 10) + 1) by (intro E; discriminate E).
  split; [exact H1|]. split; [exact H2|]. split; [exact H3|].
  apply (next_boundary_only_grid_point (103 # 10) 1 11 H1 H2 H3).
Defined.

Lemma next_boundary_monotone_witness :
  0 < 1 /\ 103 # 10 <= 117 # 10
  /\ next_boundary (103 # 10) 1 <= next_boundary (117 # 10) 1.
Proof.
  assert (H1 : 0 < 1) by reflexivity.
  assert (H2 : 103 # 10 <= 117 # 10) by (intro E; discriminate E).
  split; [exact H1|]. split; [exact H2|].
  apply (next_boundary_monotone _ _ _ H1 H2).
Defined.

Lemma wait_sleeps_to_next_boundary_witness :
  0 < burst_interval (audio (AudioGenerator.config (generator cfg)))
  /\ exists d sys' self',
       AudioGenerator._wait_for_next_burst (steady (103 # 10)) sys0 (generator cfg)
       = (AudioGenerator.Slept d, sys', self')
       /\ 0 < d /\ d <= 1.
Proof.
  assert (H : 0 < burst_interval (audio (AudioGenerator.config (generator cfg))))
    by reflexivity.
  split; [exact H|].
  destruct (AudioGeneratorEdges.wait_sleeps_to_next_boundary
              (steady (103 # 10)) sys0 (generator cfg) H)
    as (now & d & sys' & self' & _ & E & B1 & B2 & _).
  exists d, sys', self'. split; [exact E|]. split; assumption.
Defined.

Lemma wait_zero_period_raises_witness :
  burst_interval (audio (AudioGenerator.config (generator (with_interval 0)))) == 0
  /\ exists sys' self',
       AudioGenerator._wait_for_next_burst (steady 5) sys0
         (generator (with_interval 0))
       = (AudioGenerator.Raised ZeroDivisionError, sys', self').
Proof.
  assert (H : burst_interval
                (audio (AudioGenerator.config (generator (with_interval 0)))) == 0)
    by reflexivity.
  split; [exact H|].
  apply (AudioGeneratorEdges.wait_zero_period_raises (steady 5) sys0 _ H).
Defined.

Lemma wait_negative_period_never_sleeps_witness :
  burst_interval (audio (AudioGenerator.config (generator (with_interval (- (1)))))) < 0
  /\ exists sys' self',
       AudioGenerator._wait_for_next_burst (steady 5) sys0
         (generator (with_interval (- (1))))
       = (AudioGenerator.Immediate, sys', self').
Proof.
  assert (H : burst_interval
                (audio (AudioGenerator.config (generator (with_interval (- (1)))))) < 0)
    by reflexivity.
  split; [exact H|].
  apply (AudioGeneratorEdges.wait_negative_period_never_sleeps (steady 5) sys0 _ H).
Defined.

Lemma is_synchronized_caches_refresh_witness :
  let self := PTPTimeManager.init (ptp cfg) in
  exists b sys1 self1,
    PTPTimeManager.is_synchronized locked_without_phc sys0 self = (b, sys1, self1)
    /\ b = true
    /\ PTPTimeManager.is_synchronized locked_without_phc sys1 self1
       = (b, next_tick sys1, self1).
Proof.
  cbv zeta.
  destruct (PTPTimeManager.is_synchronized locked_without_phc sys0
              (PTPTimeManager.init (ptp cfg))) as [[b sys1] self1] eqn:E.
  exists b, sys1, self1. split; [reflexivity|].
  split; [vm_compute in E; inversion E; reflexivity|].
  apply (PTPTimeManagerRuns.is_synchronized_caches_refresh _ _ _ _ _ _ E).
  - reflexivity.
  - vm_compute in E. inversion E; subst. intro C; discriminate C.
Defined.

Lemma calculate_offset_without_reference_witness :
  PTPTimeManager.no_reference (steady 5) (PTPTimeManager.init (ptp cfg))
  /\ exists k sys' self',
       PTPTimeManager.calculate_offset (steady 5) sys0 (PTPTimeManager.init (ptp cfg))
       = (Some (clock (steady 5) k - clock (steady 5) (S k)), sys', self').
Proof.
  assert (N : PTPTimeManager.no_reference (steady 5) (PTPTimeManager.init (ptp cfg)))
    by (intro n; reflexivity).
  split; [exact N|].
  destruct (PTPTimeManagerRuns.calculate_offset_without_reference
              (steady 5) sys0 _ N) as (k & sys' & self' & E & _).
  exists k, sys', self'. exact E.
Defined.

Lemma quiet_windows_are_inert_witness :
  Forall (fun w => w <= AudioCapture._detection_threshold (AudioCapture.init cfg false))
         [0; 1 # 20; 1 # 10]
  /\ AudioCapture.feed [0; 1 # 20; 1 # 10] ticking sys0 (AudioCapture.init cfg false)
     = ([AudioCapture.Quiet; AudioCapture.Quiet; AudioCapture.Quiet], sys0,
        AudioCapture.init cfg false).
Proof.
  assert (H : Forall (fun w => w <= AudioCapture._detection_threshold
                                     (AudioCapture.init cfg false))
                     [0; 1 # 20; 1 # 10])
    by (repeat constructor; intro E; discriminate E).
  split; [exact H|].
  apply (AudioCaptureRuns.quiet_windows_are_inert ticking sys0 _ _ H).
Defined.

Lemma history_records_each_candidate_witness :
  ~ burst_interval (audio (AudioCapture.config (AudioCapture.init cfg true))) == 0
  /\ exists bs,
       AudioCapture._detected_bursts
         (snd (AudioCapture.feed [1; 0; 1; 1] ticking sys0 (AudioCapture.init cfg true)))
       = bs
       /\ List.length bs = 3%nat.
Proof.
  assert (Z : ~ burst_interval
                  (audio (AudioCapture.config (AudioCapture.init cfg true))) == 0)
    by (intro H; discriminate H).
  split; [exact Z|].
  destruct (AudioCaptureRuns.history_records_each_candidate
              ticking sys0 (AudioCapture.init cfg true) [1; 0; 1; 1] Z)
    as (bs & H & D).
  exists bs. split; [exact H|].
  rewrite <- (length_map BurstInfo.detection_time), D. vm_compute. reflexivity.
Defined.

Lemma sink_gets_one_point_per_candidate_witness :
  ~ burst_interval (audio (AudioCapture.config (AudioCapture.init cfg true))) == 0
  /\ List.length
       (influx (snd (fst (AudioCapture.feed [1; 0; 1; 1] ticking sys0
                            (AudioCapture.init cfg true)))))
     = 3%nat.
Proof.
  assert (Z : ~ burst_interval
                  (audio (AudioCapture.config (AudioCapture.init cfg true))) == 0)
    by (intro H; discriminate H).
  split; [exact Z|].
  destruct (AudioCaptureRuns.sink_gets_one_point_per_candidate
              ticking sys0 (AudioCapture.init cfg true) [1; 0; 1; 1] Z)
    as (pts & H & L).
  rewrite H, length_app, L. vm_compute. reflexivity.
Defined.

Lemma steady_is_monotone (v : Q) : monotone_clock (steady v).
Proof. intros i j _. apply Qle_refl. Qed.

Lemma local_latency_is_negative_witness :
  0 < burst_interval (audio (AudioCapture.config (AudioCapture.init cfg false)))
  /\ AudioCapture.reference_absent (steady 5) (AudioCapture.init cfg false)
  /\ monotone_clock (steady 5)
  /\ exists bs,
       AudioCapture._detected_bursts
         (snd (AudioCapture.feed [1] (steady 5) sys0 (AudioCapture.init cfg false)))
       = bs
       /\ Forall (fun b => BurstInfo.latency_ms b < 0) bs.
Proof.
  assert (P : 0 < burst_interval
                    (audio (AudioCapture.config (AudioCapture.init cfg false))))
    by reflexivity.
  assert (N : AudioCapture.reference_absent (steady 5) (AudioCapture.init cfg false))
    by (intro n; reflexivity).
  pose proof (steady_is_monotone 5) as M.
  split; [exact P|]. split; [exact N|]. split; [exact M|].
  destruct (AudioCaptureRuns.local_latency_is_negative
              (steady 5) sys0 (AudioCapture.init cfg false) [1] P N M)
    as (bs & H & F).
  exists bs. split; [exact H|exact F].
Defined.

Lemma zero_period_drops_every_candidate_witness :
  let self := AudioCapture.init (with_interval 0) true in
  burst_interval (audio (AudioCapture.config self)) == 0
  /\ AudioCapture.candidates (fst (fst (AudioCapture.feed [1] (steady 5) sys0 self)))
     = [(5, true)]
  /\ AudioCapture._detected_bursts (snd (AudioCapture.feed [1] (steady 5) sys0 self))
     = []
  /\ influx (snd (fst (AudioCapture.feed [1] (steady 5) sys0 self))) = [].
Proof.
  cbv zeta.
  assert (Z : burst_interval
                (audio (AudioCapture.config (AudioCapture.init (with_interval 0) true)))
              == 0) by reflexivity.
  split; [exact Z|]. split; [vm_compute; reflexivity|].
  apply (AudioCaptureRuns.zero_period_drops_every_candidate (steady 5) sys0 _ [1] Z).
Defined.

Lemma get_recent_bursts_nonpositive_count_witness :
  (0 <= 0)%Z /\ (-1 <= 0)%Z
  /\ AudioCapture.get_recent_bursts three_bursts 0
     = [burst_at 1; burst_at 2; burst_at 3]
  /\ AudioCapture.get_recent_bursts three_bursts (-1) = [burst_at 2; burst_at 3].
Proof.
  assert (H0 : (0 <= 0)%Z) by lia. assert (H1 : (-1 <= 0)%Z) by lia.
  split; [exact H0|]. split; [exact H1|]. split.
  - rewrite (AudioCaptureRuns.get_recent_bursts_nonpositive_count three_bursts 0 H0).
    reflexivity.
  - rewrite (AudioCaptureRuns.get_recent_bursts_nonpositive_count three_bursts (-1) H1).
    reflexivity.
Defined.

Lemma from_file_copies_the_file_witness :
  exists cfg,
    ConfigFile.from_file type_error_text (ConfigFile.Parsed document) = inr cfg
    /\ map fst cfg = ConfigFile.fields
    /\ In ("ptp"%string, "domain"%string, ConfigFile.Str "zero") cfg.
Proof.
  destruct (ConfigFile.from_file type_error_text (ConfigFile.Parsed document))
    as [e|cfg] eqn:H; [vm_compute in H; discriminate H|].
  exists cfg. split; [reflexivity|].
  split; [exact (proj1 (ConfigFileFacts.from_file_copies_the_file _ _ _ H))|].
  vm_compute in H. inversion H. cbn. auto.
Defined.

Lemma from_file_names_the_first_missing_key_witness :
  ConfigFile.from_file type_error_text (ConfigFile.Parsed ptp_only)
  = inl (ValueError "Missing required configuration key: 'audio'").
Proof.
  refine (proj1 (ConfigFileFacts.from_file_names_the_first_missing_key
                   type_error_text ptp_only
                   [("ptp", "interface"); ("ptp", "domain"); ("ptp", "priority")]%string
                   "audio"%string "sample_rate"%string
                   (skipn 4 ConfigFile.fields) "audio"%string _ _ _)).
  - reflexivity.
  - intros p [<-|[<-|[<-|[]]]]; eexists; reflexivity.
  - reflexivity.
Defined.

Lemma find_loopback_device_first_match_witness :
  AudioDevices._find_loopback_device host (AudioCapture.init cfg false) = 1%nat.
Proof.
  apply (AudioDevicesFacts.find_loopback_device_first_match
           host (AudioCapture.init cfg false) 3 1 "Loopback: PCM (hw:2,0)"%string).
  - reflexivity.
  - lia.
  - intros d Hd. assert (d = 0%nat) by lia. subst d.
    eexists. split; reflexivity.
  - reflexivity.
  - reflexivity.
Defined.

Lemma find_loopback_device_falls_back_to_default_witness :
  AudioDevices._find_loopback_device plain_host (AudioCapture.init cfg false) = 1%nat.
Proof.
  rewrite (AudioDevicesFacts.find_loopback_device_falls_back_to_default
             plain_host (AudioCapture.init cfg false) 2).
  - reflexivity.
  - reflexivity.
  - intros d Hd. destruct d as [|[|d]]; [| |lia]; eexists; split; reflexivity.
Defined.

Lemma empty_loopback_name_selects_first_device_witness :
  loopback_device (audio (AudioCapture.config (AudioCapture.init (with_loopback "") false)))
  = ""%string
  /\ AudioDevices.scan_devices plain_host (AudioCapture.init (with_loopback "") false) 2 0
     = AudioDevices.Found 0.
Proof.
  split; [reflexivity|].
  apply (AudioDevicesFacts.empty_loopback_name_selects_first_device
           plain_host _ 1 "HDA Intel PCH"%string); reflexivity.
Defined.

End MoreRuns.
